(** * DWARF unit-header decoding (gdb/dwarf2/comp-unit.c)

    A shallow embedding of [read_comp_unit_head],
    [error_check_comp_unit_head], [read_and_check_comp_unit_head] and the
    four-argument [read_offset], together with the properties of the unit
    header decoder that the design document states about them.

    C integers are modelled as [Z] with every conversion written out;
    pointers into a section are modelled as byte offsets from
    [section->buffer]; the in-place update of [*cu_header] and of the local
    variables is modelled by a small state-and-exception monad whose state
    survives a thrown error, as the mutated C object does. *)

From Stdlib Require Import ZArith List String Bool Lia.
From Stdlib Require Import Init.Byte.
Import ListNotations.
Local Open Scope Z_scope.

(** ** Integer conversions *)

(** Conversion to an unsigned integer type of [bits] value bits. *)
Definition to_unsigned (bits v : Z) : Z := v mod 2 ^ bits.

(** Conversion to a two's-complement signed integer type of [bits] bits. *)
Definition to_signed (bits v : Z) : Z :=
  let u := v mod 2 ^ bits in
  if u <? 2 ^ (bits - 1) then u else u - 2 ^ bits.

(** ** Bytes and the object-file reader *)

Definition gdb_byte : Type := Byte.byte.

Definition byte_val (b : gdb_byte) : Z := Z.of_N (Byte.to_N b).

(** Little-endian and big-endian value of a run of bytes. *)
Fixpoint getl (bs : list gdb_byte) : Z :=
  match bs with
  | [] => 0
  | b :: rest => byte_val b + 256 * getl rest
  end.

Definition getb (bs : list gdb_byte) : Z := getl (rev bs).

(** The [n] bytes found at offset [ptr] of [buf].  The C code dereferences
    its pointer without any bound check; a read that leaves the buffer has
    no defined result and is [None] here. *)
Definition fetch (buf : list gdb_byte) (ptr : Z) (n : nat) : option (list gdb_byte) :=
  if (0 <=? ptr) && (ptr + Z.of_nat n <=? Z.of_nat (List.length buf))
  then Some (firstn n (skipn (Z.to_nat ptr) buf))
  else None.

(** Modelled from the spec: the object-file provider ([bfd], declared in
    bfd.h).  The design document gives it two capabilities: the byte order
    of the file and its address sign-extension policy
    ([bfd_get_sign_extend_vma]: 1 signed, 0 unsigned, negative unknown). *)
Record bfd : Type := {
  big_endian : bool;
  sign_extend_vma : Z
}.

Definition bfd_get (abfd : bfd) (n : nat) (buf : list gdb_byte) (ptr : Z) : option Z :=
  option_map (if big_endian abfd then getb else getl) (fetch buf ptr n).

Definition bfd_get_sign_extend_vma (abfd : bfd) : Z := sign_extend_vma abfd.

(** Modelled from the spec: the fixed-width readers of dwarf2/leb.h
    ([read_1_byte], [read_2_bytes], [read_8_bytes]), which return the
    unsigned value of 1, 2 and 8 bytes in the file's byte order. *)
Definition read_1_byte (abfd : bfd) (buf : list gdb_byte) (ptr : Z) : option Z :=
  bfd_get abfd 1 buf ptr.

Definition read_2_bytes (abfd : bfd) (buf : list gdb_byte) (ptr : Z) : option Z :=
  bfd_get abfd 2 buf ptr.

Definition read_8_bytes (abfd : bfd) (buf : list gdb_byte) (ptr : Z) : option Z :=
  bfd_get abfd 8 buf ptr.

(** The reserved initial-length value that announces 64-bit DWARF. *)
Definition dwarf64_escape : Z := 0xffffffff.

(** Modelled from the spec: [read_initial_length] of dwarf2/leb.h, after
    section 4.1 of the design document: a 4-byte value; when it is the
    escape marker the true length is the following 8-byte value and 12
    bytes are consumed, otherwise the 4-byte value is the length and 4
    bytes are consumed.  The result is the pair (length as a LONGEST,
    bytes read). *)
Definition read_initial_length (abfd : bfd) (buf : list gdb_byte) (ptr : Z)
  : option (Z * Z) :=
  match bfd_get abfd 4 buf ptr with
  | None => None
  | Some length =>
      if length =? dwarf64_escape
      then option_map (fun l => (to_signed 64 l, 12)) (bfd_get abfd 8 buf (ptr + 4))
      else Some (length, 4)
  end.

(** Modelled from the spec: the three-argument [read_offset] of
    dwarf2/leb.h ("reads a 4- or 8-byte offset based on an already-known
    offset size"); its result type is LONGEST. *)
Definition read_offset_1 (abfd : bfd) (buf : list gdb_byte) (ptr : Z) (offset_size : Z)
  : option Z :=
  if offset_size =? 4
  then bfd_get abfd 4 buf ptr
  else option_map (to_signed 64) (bfd_get abfd 8 buf ptr).

(** ** Data model *)

(** [enum dwarf_unit_type], kept as the integer the code casts the byte
    to; the enumerators are those named by [dwarf_unit_type_name]. *)
Definition DW_UT_compile : Z := 0x01.
Definition DW_UT_type : Z := 0x02.
Definition DW_UT_partial : Z := 0x03.
Definition DW_UT_skeleton : Z := 0x04.
Definition DW_UT_split_compile : Z := 0x05.
Definition DW_UT_split_type : Z := 0x06.
Definition DW_UT_lo_user : Z := 0x80.
Definition DW_UT_hi_user : Z := 0xff.

Definition dwarf_unit_type_name (unit_type : Z) : option string :=
  if unit_type =? 0x01 then Some "DW_UT_compile (0x01)"%string
  else if unit_type =? 0x02 then Some "DW_UT_type (0x02)"%string
  else if unit_type =? 0x03 then Some "DW_UT_partial (0x03)"%string
  else if unit_type =? 0x04 then Some "DW_UT_skeleton (0x04)"%string
  else if unit_type =? 0x05 then Some "DW_UT_split_compile (0x05)"%string
  else if unit_type =? 0x06 then Some "DW_UT_split_type (0x06)"%string
  else if unit_type =? 0x80 then Some "DW_UT_lo_user (0x80)"%string
  else if unit_type =? 0xff then Some "DW_UT_hi_user (0xff)"%string
  else None.

(** [enum class rcuh_kind], the section kind the caller expects.  The
    enumeration has the two enumerators the code names; [rcuh_invalid]
    stands for any other value of the underlying integer type, which is
    what the [default:] label of the version < 5 switch catches. *)
Inductive rcuh_kind : Type :=
| COMPILE
| TYPE
| rcuh_invalid.

Definition rcuh_kind_eqb (a b : rcuh_kind) : bool :=
  match a, b with
  | COMPILE, COMPILE | TYPE, TYPE | rcuh_invalid, rcuh_invalid => true
  | _, _ => false
  end.

(** [struct comp_unit_head].  The struct is declared in
    dwarf2/comp-unit.h; the C type of each field is recalled on its line
    and every store below narrows to it. *)
Record comp_unit_head : Type := {
  length : Z;                (* unsigned int *)
  version : Z;               (* short *)
  addr_size : Z;             (* unsigned char *)
  signed_addr_p : Z;         (* unsigned char *)
  abbrev_sect_off : Z;       (* sect_offset, 64-bit unsigned *)
  offset_size : Z;           (* unsigned int *)
  initial_length_size : Z;   (* unsigned int *)
  unit_type : Z;             (* enum dwarf_unit_type *)
  sect_off : Z;              (* sect_offset *)
  first_die_cu_offset : Z;   (* cu_offset *)
  signature : Z;             (* ULONGEST *)
  type_cu_offset_in_tu : Z   (* cu_offset *)
}.

Definition set_length (v : Z) (h : comp_unit_head) : comp_unit_head :=
  {| length := v; version := version h; addr_size := addr_size h;
     signed_addr_p := signed_addr_p h; abbrev_sect_off := abbrev_sect_off h;
     offset_size := offset_size h; initial_length_size := initial_length_size h;
     unit_type := unit_type h; sect_off := sect_off h;
     first_die_cu_offset := first_die_cu_offset h; signature := signature h;
     type_cu_offset_in_tu := type_cu_offset_in_tu h |}.

Definition set_version (v : Z) (h : comp_unit_head) : comp_unit_head :=
  {| length := length h; version := v; addr_size := addr_size h;
     signed_addr_p := signed_addr_p h; abbrev_sect_off := abbrev_sect_off h;
     offset_size := offset_size h; initial_length_size := initial_length_size h;
     unit_type := unit_type h; sect_off := sect_off h;
     first_die_cu_offset := first_die_cu_offset h; signature := signature h;
     type_cu_offset_in_tu := type_cu_offset_in_tu h |}.

Definition set_addr_size (v : Z) (h : comp_unit_head) : comp_unit_head :=
  {| length := length h; version := version h; addr_size := v;
     signed_addr_p := signed_addr_p h; abbrev_sect_off := abbrev_sect_off h;
     offset_size := offset_size h; initial_length_size := initial_length_size h;
     unit_type := unit_type h; sect_off := sect_off h;
     first_die_cu_offset := first_die_cu_offset h; signature := signature h;
     type_cu_offset_in_tu := type_cu_offset_in_tu h |}.

Definition set_signed_addr_p (v : Z) (h : comp_unit_head) : comp_unit_head :=
  {| length := length h; version := version h; addr_size := addr_size h;
     signed_addr_p := v; abbrev_sect_off := abbrev_sect_off h;
     offset_size := offset_size h; initial_length_size := initial_length_size h;
     unit_type := unit_type h; sect_off := sect_off h;
     first_die_cu_offset := first_die_cu_offset h; signature := signature h;
     type_cu_offset_in_tu := type_cu_offset_in_tu h |}.

Definition set_abbrev_sect_off (v : Z) (h : comp_unit_head) : comp_unit_head :=
  {| length := length h; version := version h; addr_size := addr_size h;
     signed_addr_p := signed_addr_p h; abbrev_sect_off := v;
     offset_size := offset_size h; initial_length_size := initial_length_size h;
     unit_type := unit_type h; sect_off := sect_off h;
     first_die_cu_offset := first_die_cu_offset h; signature := signature h;
     type_cu_offset_in_tu := type_cu_offset_in_tu h |}.

Definition set_offset_size (v : Z) (h : comp_unit_head) : comp_unit_head :=
  {| length := length h; version := version h; addr_size := addr_size h;
     signed_addr_p := signed_addr_p h; abbrev_sect_off := abbrev_sect_off h;
     offset_size := v; initial_length_size := initial_length_size h;
     unit_type := unit_type h; sect_off := sect_off h;
     first_die_cu_offset := first_die_cu_offset h; signature := signature h;
     type_cu_offset_in_tu := type_cu_offset_in_tu h |}.

Definition set_initial_length_size (v : Z) (h : comp_unit_head) : comp_unit_head :=
  {| length := length h; version := version h; addr_size := addr_size h;
     signed_addr_p := signed_addr_p h; abbrev_sect_off := abbrev_sect_off h;
     offset_size := offset_size h; initial_length_size := v;
     unit_type := unit_type h; sect_off := sect_off h;
     first_die_cu_offset := first_die_cu_offset h; signature := signature h;
     type_cu_offset_in_tu := type_cu_offset_in_tu h |}.

Definition set_unit_type (v : Z) (h : comp_unit_head) : comp_unit_head :=
  {| length := length h; version := version h; addr_size := addr_size h;
     signed_addr_p := signed_addr_p h; abbrev_sect_off := abbrev_sect_off h;
     offset_size := offset_size h; initial_length_size := initial_length_size h;
     unit_type := v; sect_off := sect_off h;
     first_die_cu_offset := first_die_cu_offset h; signature := signature h;
     type_cu_offset_in_tu := type_cu_offset_in_tu h |}.

Definition set_sect_off (v : Z) (h : comp_unit_head) : comp_unit_head :=
  {| length := length h; version := version h; addr_size := addr_size h;
     signed_addr_p := signed_addr_p h; abbrev_sect_off := abbrev_sect_off h;
     offset_size := offset_size h; initial_length_size := initial_length_size h;
     unit_type := unit_type h; sect_off := v;
     first_die_cu_offset := first_die_cu_offset h; signature := signature h;
     type_cu_offset_in_tu := type_cu_offset_in_tu h |}.

Definition set_first_die_cu_offset (v : Z) (h : comp_unit_head) : comp_unit_head :=
  {| length := length h; version := version h; addr_size := addr_size h;
     signed_addr_p := signed_addr_p h; abbrev_sect_off := abbrev_sect_off h;
     offset_size := offset_size h; initial_length_size := initial_length_size h;
     unit_type := unit_type h; sect_off := sect_off h;
     first_die_cu_offset := v; signature := signature h;
     type_cu_offset_in_tu := type_cu_offset_in_tu h |}.

Definition set_signature (v : Z) (h : comp_unit_head) : comp_unit_head :=
  {| length := length h; version := version h; addr_size := addr_size h;
     signed_addr_p := signed_addr_p h; abbrev_sect_off := abbrev_sect_off h;
     offset_size := offset_size h; initial_length_size := initial_length_size h;
     unit_type := unit_type h; sect_off := sect_off h;
     first_die_cu_offset := first_die_cu_offset h; signature := v;
     type_cu_offset_in_tu := type_cu_offset_in_tu h |}.

Definition set_type_cu_offset_in_tu (v : Z) (h : comp_unit_head) : comp_unit_head :=
  {| length := length h; version := version h; addr_size := addr_size h;
     signed_addr_p := signed_addr_p h; abbrev_sect_off := abbrev_sect_off h;
     offset_size := offset_size h; initial_length_size := initial_length_size h;
     unit_type := unit_type h; sect_off := sect_off h;
     first_die_cu_offset := first_die_cu_offset h; signature := signature h;
     type_cu_offset_in_tu := v |}.

(** Modelled from the spec: [struct dwarf2_section_info] (dwarf2/section.h),
    the section-metadata provider: byte buffer, byte length, display name
    and owning object file.  [size] is a field of its own, as in C, and is
    not derived from the buffer. *)
Record dwarf2_section_info : Type := {
  buffer : list gdb_byte;
  size : Z;
  file_name : string;
  bfd_owner : bfd
}.

Definition get_file_name (section : dwarf2_section_info) : string := file_name section.
Definition get_bfd_owner (section : dwarf2_section_info) : bfd := bfd_owner section.

(** Modelled from the spec: [dwarf2_section_info::get_size], the byte
    length of the (abbreviation) section. *)
Definition get_size (section : dwarf2_section_info) : Z := size section.

(** [comp_unit_head::get_length], the total length of the unit.  The
    helper is declared with the struct in dwarf2/comp-unit.h, outside
    comp-unit.c; GDB's body is [return initial_length_size + length;] with
    result type unsigned int, so the sum is taken modulo 2^32. *)
Definition get_length (h : comp_unit_head) : Z :=
  to_unsigned 32 (initial_length_size h + length h).

(** ** Failures *)

(** [error (...)] raises a DWARF decode failure, [internal_error (...)] a
    programming error.  Each failure keeps the offending value that the
    message prints; the message text and the module name are not kept. *)
Inductive failure : Type :=
| BadVersion (version : Z)
| BadUnitType (unit_type : Z)
| TypeOffsetTooLarge (type_offset : Z)
| BadAbbrevOffset (abbrev_sect_off : Z)
| BadUnitLength (length : Z)
| InternalError (message : string)
| ReadOutsideBuffer.

Inductive outcome (A : Type) : Type :=
| Normal (a : A)
| Thrown (e : failure).

Arguments Normal {A} a.
Arguments Thrown {A} e.

(** ** The decoding monad *)

(** The mutable state of one call of [read_comp_unit_head]: the header
    being filled in through the [cu_header] pointer, and the two locals the
    function reassigns, the cursor [info_ptr] and [section_kind]. *)
Record locals : Type := {
  cu_header : comp_unit_head;
  info_ptr : Z;
  section_kind : rcuh_kind
}.

Definition M (A : Type) : Type := locals -> outcome A * locals.

Definition ret {A : Type} (a : A) : M A := fun s => (Normal a, s).

Definition bind {A B : Type} (m : M A) (k : A -> M B) : M B :=
  fun s =>
    match m s with
    | (Normal a, s') => k a s'
    | (Thrown e, s') => (Thrown e, s')
    end.

Notation "x <- m ;; k" := (bind m (fun x => k))
  (at level 61, m at next level, right associativity).
Notation "' pat <- m ;; k" := (bind m (fun x => match x with pat => k end))
  (at level 61, pat pattern, m at next level, right associativity).
Notation "m ;; k" := (bind m (fun _ => k))
  (at level 61, right associativity).

Definition error {A : Type} (e : failure) : M A := fun s => (Thrown e, s).

Definition internal_error {A : Type} (message : string) : M A :=
  error (InternalError message).

(** Reading a field of [*cu_header] and storing into one. *)
Definition field {A : Type} (proj : comp_unit_head -> A) : M A :=
  fun s => (Normal (proj (cu_header s)), s).

Definition assign (upd : comp_unit_head -> comp_unit_head) : M unit :=
  fun s =>
    (Normal tt,
     {| cu_header := upd (cu_header s); info_ptr := info_ptr s;
        section_kind := section_kind s |}).

Definition get_section_kind : M rcuh_kind :=
  fun s => (Normal (section_kind s), s).

Definition set_section_kind (k : rcuh_kind) : M unit :=
  fun s =>
    (Normal tt,
     {| cu_header := cu_header s; info_ptr := info_ptr s; section_kind := k |}).

(** [info_ptr += n]. *)
Definition advance (n : Z) : M unit :=
  fun s =>
    (Normal tt,
     {| cu_header := cu_header s; info_ptr := info_ptr s + n;
        section_kind := section_kind s |}).

(** A read through [info_ptr]. *)
Definition read_at {A : Type} (reader : Z -> option A) : M A :=
  fun s =>
    match reader (info_ptr s) with
    | Some a => (Normal a, s)
    | None => (Thrown ReadOutsideBuffer, s)
    end.

Definition when (c : bool) (m : M unit) : M unit := if c then m else ret tt.

(** ** comp-unit.c *)

(** The four-argument [read_offset]: the offset read with the unit's
    [offset_size], and that size as [*bytes_read]. *)
Definition read_offset (abfd : bfd) (buf : list gdb_byte) (ptr : Z)
    (cu_header : comp_unit_head) : option (Z * Z) :=
  match read_offset_1 abfd buf ptr (offset_size cu_header) with
  | Some offset => Some (offset, offset_size cu_header)
  | None => None
  end.

Section Decoder.

(** Number of value bits of the unsigned underlying type of [cu_offset].
    The type is declared outside comp-unit.c (GDB's gdbtypes.h has
    DEFINE_OFFSET_TYPE (cu_offset, unsigned int), that is 32); it is
    narrower than LONGEST, or the test that guards the "Too big
    type_offset" error could never fail.  The cast is to this one static
    type whatever the unit's [offset_size] is. *)
Variable cu_offset_bits : Z.

(** The block guarded by [if (section_kind == rcuh_kind::TYPE)] that ends
    [read_comp_unit_head]: the offset is read as a LONGEST, stored through
    a cast to [cu_offset], and the stored value is compared with the
    LONGEST (the narrower unsigned operand is widened for the
    comparison). *)
Definition read_type_offset (section : dwarf2_section_info) : M unit :=
  let abfd := get_bfd_owner section in
  let buf := buffer section in
  h <- field id ;;
  ' (type_offset, bytes_read) <- read_at (fun p => read_offset abfd buf p h) ;;
  advance bytes_read ;;
  assign (set_type_cu_offset_in_tu (to_unsigned cu_offset_bits type_offset)) ;;
  narrowed <- field type_cu_offset_in_tu ;;
  when (negb (narrowed =? type_offset)) (error (TypeOffsetTooLarge type_offset)).

(** The body of [read_comp_unit_head], statement by statement. *)
Definition read_comp_unit_head_body (section : dwarf2_section_info) : M unit :=
  let abfd := get_bfd_owner section in
  let buf := buffer section in
  ' (len, bytes_read) <- read_at (read_initial_length abfd buf) ;;
  assign (set_length (to_unsigned 32 len)) ;;
  assign (set_initial_length_size bytes_read) ;;
  assign (set_offset_size (if bytes_read =? 4 then 4 else 8)) ;;
  advance bytes_read ;;
  v <- read_at (read_2_bytes abfd buf) ;;
  assign (set_version (to_signed 16 v)) ;;
  ver <- field version ;;
  when ((ver <? 2) || (ver >? 5)) (error (BadVersion ver)) ;;
  advance 2 ;;
  (if ver <? 5
   then
     kind <- get_section_kind ;;
     match kind with
     | COMPILE => assign (set_unit_type DW_UT_compile)
     | TYPE => assign (set_unit_type DW_UT_type)
     | _ => internal_error "read_comp_unit_head: invalid section_kind"
     end
   else
     ut <- read_at (read_1_byte abfd buf) ;;
     assign (set_unit_type ut) ;;
     advance 1 ;;
     (if (ut =? DW_UT_compile) || (ut =? DW_UT_partial)
         || (ut =? DW_UT_skeleton) || (ut =? DW_UT_split_compile)
      then
        kind <- get_section_kind ;;
        when (negb (rcuh_kind_eqb kind COMPILE)) (error (BadUnitType ut))
      else if (ut =? DW_UT_type) || (ut =? DW_UT_split_type)
      then set_section_kind TYPE
      else error (BadUnitType ut)) ;;
     a <- read_at (read_1_byte abfd buf) ;;
     assign (set_addr_size (to_unsigned 8 a)) ;;
     advance 1) ;;
  h <- field id ;;
  ' (abbrev, bytes_read) <- read_at (fun p => read_offset abfd buf p h) ;;
  assign (set_abbrev_sect_off (to_unsigned 64 abbrev)) ;;
  advance bytes_read ;;
  when (ver <? 5)
    (a <- read_at (read_1_byte abfd buf) ;;
     assign (set_addr_size (to_unsigned 8 a)) ;;
     advance 1) ;;
  let signed_addr := bfd_get_sign_extend_vma abfd in
  when (signed_addr <? 0)
    (internal_error "read_comp_unit_head: dwarf from non elf file") ;;
  assign (set_signed_addr_p (to_unsigned 8 signed_addr)) ;;
  kind <- get_section_kind ;;
  ut <- field unit_type ;;
  let header_has_signature :=
    rcuh_kind_eqb kind TYPE || (ut =? DW_UT_skeleton) || (ut =? DW_UT_split_compile) in
  when header_has_signature
    (sig <- read_at (read_8_bytes abfd buf) ;;
     assign (set_signature sig) ;;
     advance 8) ;;
  when (rcuh_kind_eqb kind TYPE) (read_type_offset section).

(** One call of [read_comp_unit_head], keeping the final value of every
    local: the outcome and the state the call ends (or throws) in. *)
Definition read_comp_unit_head_run (cu_header : comp_unit_head) (info_ptr : Z)
    (section : dwarf2_section_info) (section_kind : rcuh_kind)
  : outcome unit * locals :=
  read_comp_unit_head_body section
    {| cu_header := cu_header; info_ptr := info_ptr; section_kind := section_kind |}.

(** [read_comp_unit_head]: the returned cursor, or the error thrown, and
    the header object as the call leaves it. *)
Definition read_comp_unit_head (header : comp_unit_head) (ptr : Z)
    (section : dwarf2_section_info) (kind : rcuh_kind)
  : outcome Z * comp_unit_head :=
  match read_comp_unit_head_run header ptr section kind with
  | (Normal _, s) => (Normal (info_ptr s), cu_header s)
  | (Thrown e, s) => (Thrown e, cu_header s)
  end.

(** [error_check_comp_unit_head].  The first comparison is between two
    unsigned 64-bit values; the second adds in ULONGEST, 64-bit unsigned
    arithmetic. *)
Definition error_check_comp_unit_head (header : comp_unit_head)
    (section abbrev_section : dwarf2_section_info) : outcome unit :=
  if abbrev_sect_off header >=? get_size abbrev_section
  then Thrown (BadAbbrevOffset (abbrev_sect_off header))
  else if to_unsigned 64 (to_unsigned 64 (sect_off header) + get_length header)
            >? size section
  then Thrown (BadUnitLength (length header))
  else Normal tt.

(** [read_and_check_comp_unit_head]; [beg_of_comp_unit - section->buffer]
    is the offset [info_ptr] itself. *)
Definition read_and_check_comp_unit_head (header : comp_unit_head)
    (section abbrev_section : dwarf2_section_info) (info_ptr : Z)
    (section_kind : rcuh_kind) : outcome Z * comp_unit_head :=
  let beg_of_comp_unit := info_ptr in
  let header := set_sect_off (to_unsigned 64 beg_of_comp_unit) header in
  match read_comp_unit_head header info_ptr section section_kind with
  | (Thrown e, header) => (Thrown e, header)
  | (Normal info_ptr, header) =>
      let header :=
        set_first_die_cu_offset
          (to_unsigned cu_offset_bits (info_ptr - beg_of_comp_unit)) header in
      match error_check_comp_unit_head header section abbrev_section with
      | Thrown e => (Thrown e, header)
      | Normal _ => (Normal info_ptr, header)
      end
  end.

End Decoder.

(** ** Reasoning about monadic code *)

(** [wp m Q s]: running [m] from [s] ends in an outcome and a state that
    satisfy [Q]. *)
Definition wp {A : Type} (m : M A) (Q : outcome A -> locals -> Prop) (s : locals) : Prop :=
  Q (fst (m s)) (snd (m s)).

(** ** Sample units *)

(** The header object as a caller passes it in, every field zero. *)
Definition header_zero : comp_unit_head :=
  {| length := 0; version := 0; addr_size := 0; signed_addr_p := 0;
     abbrev_sect_off := 0; offset_size := 0; initial_length_size := 0;
     unit_type := 0; sect_off := 0; first_die_cu_offset := 0; signature := 0;
     type_cu_offset_in_tu := 0 |}.

(** A little-endian ELF object file with unsigned addresses. *)
Definition elf_le : bfd := {| big_endian := false; sign_extend_vma := 0 |}.

Definition section_of (bytes : list gdb_byte) (size : Z) : dwarf2_section_info :=
  {| buffer := bytes; size := size; file_name := "a.out"; bfd_owner := elf_le |}.

(** Version 4, 32-bit DWARF: length 20, version 4, abbreviation offset 0,
    address size 8, then 13 bytes of DIEs. *)
Definition v4_compile_unit : list gdb_byte :=
  [x14; x00; x00; x00;  x04; x00;  x00; x00; x00; x00;  x08]
  ++ repeat x00 13.

(** Version 5, 32-bit DWARF, with the given unit-type byte: length 20,
    version 5, unit type, address size 8, abbreviation offset 0, then 8
    bytes that a type-like, skeleton or split-compile unit reads as its
    signature and 4 bytes (0x18) that a type-like unit reads as its type
    offset. *)
Definition v5_unit (unit_type : gdb_byte) : list gdb_byte :=
  [x14; x00; x00; x00;  x05; x00;  unit_type;  x08;  x00; x00; x00; x00;
   x01; x02; x03; x04; x05; x06; x07; x08;  x18; x00; x00; x00].

(** Version 5, 64-bit DWARF type unit: escape marker and 8-byte length 32,
    version 5, [DW_UT_type], address size 8, 8-byte abbreviation offset 0,
    8-byte signature, and the given 8-byte type offset. *)
Definition v5_type_unit_64 (type_offset : list gdb_byte) : list gdb_byte :=
  [xff; xff; xff; xff;  x20; x00; x00; x00; x00; x00; x00; x00;  x05; x00;
   x02;  x08;  x00; x00; x00; x00; x00; x00; x00; x00;
   x01; x02; x03; x04; x05; x06; x07; x08] ++ type_offset.

(** The 8 bytes of 2^32, little-endian. *)
Definition two_pow_32_le : list gdb_byte :=
  [x00; x00; x00; x00; x01; x00; x00; x00].

(** What the raw decode makes of [v4_compile_unit] read at offset 0. *)
Definition v4_compile_header : comp_unit_head :=
  {| length := 20; version := 4; addr_size := 8; signed_addr_p := 0;
     abbrev_sect_off := 0; offset_size := 4; initial_length_size := 4;
     unit_type := DW_UT_compile; sect_off := 0; first_die_cu_offset := 0;
     signature := 0; type_cu_offset_in_tu := 0 |}.

(** An object file whose address sign-extension policy is unknown (not
    an ELF file). *)
Definition unknown_sign_le : bfd := {| big_endian := false; sign_extend_vma := -1 |}.

(** A unit that announces version 6: length 20, version 6, 18 more bytes. *)
Definition v6_unit : list gdb_byte :=
  [x14; x00; x00; x00;  x06; x00] ++ repeat x00 18.

(** ** Facts about the readers *)

Lemma byte_val_range (b : gdb_byte) : 0 <= byte_val b < 256.
Proof.
  unfold byte_val. pose proof (Byte.to_N_bounded b). lia.
Qed.

Lemma getl_range (bs : list gdb_byte) :
  0 <= getl bs < 256 ^ Z.of_nat (List.length bs).
Proof.
  induction bs as [|b rest IH].
  - simpl. lia.
  - cbn [getl List.length]. rewrite Nat2Z.inj_succ, Z.pow_succ_r by lia.
    pose proof (byte_val_range b). lia.
Qed.

Lemma fetch_length buf ptr n bs :
  fetch buf ptr n = Some bs -> List.length bs = n.
Proof.
  unfold fetch.
  destruct ((0 <=? ptr) && (ptr + Z.of_nat n <=? Z.of_nat (List.length buf))) eqn:E;
    [|discriminate].
  intros [= <-]. apply andb_true_iff in E as [E1 E2].
  apply Z.leb_le in E1, E2.
  rewrite length_firstn, length_skipn. lia.
Qed.

Lemma bfd_get_range abfd n buf ptr v :
  bfd_get abfd n buf ptr = Some v -> 0 <= v < 256 ^ Z.of_nat n.
Proof.
  unfold bfd_get. destruct (fetch buf ptr n) as [bs|] eqn:F; [|discriminate].
  apply fetch_length in F. cbn [option_map]. intros [= <-].
  destruct (big_endian abfd).
  - unfold getb. pose proof (getl_range (rev bs)) as R.
    rewrite length_rev, F in R. exact R.
  - pose proof (getl_range bs) as R. rewrite F in R. exact R.
Qed.

Lemma read_1_byte_range abfd buf ptr v :
  read_1_byte abfd buf ptr = Some v -> 0 <= v < 256.
Proof. intros H. apply bfd_get_range in H. exact H. Qed.

Lemma read_2_bytes_range abfd buf ptr v :
  read_2_bytes abfd buf ptr = Some v -> 0 <= v < 65536.
Proof. intros H. apply bfd_get_range in H. exact H. Qed.

Lemma read_offset_1_range_4 abfd buf ptr v :
  read_offset_1 abfd buf ptr 4 = Some v -> 0 <= v < 2 ^ 32.
Proof.
  unfold read_offset_1. cbn [Z.eqb Pos.eqb]. intros H.
  apply bfd_get_range in H. exact H.
Qed.

Lemma read_initial_length_bytes abfd buf ptr len n :
  read_initial_length abfd buf ptr = Some (len, n) -> n = 4 \/ n = 12.
Proof.
  unfold read_initial_length.
  destruct (bfd_get abfd 4 buf ptr) as [l|]; [|discriminate].
  destruct (l =? dwarf64_escape).
  - destruct (bfd_get abfd 8 buf (ptr + 4)); cbn [option_map]; [|discriminate].
    intros [= _ <-]. now right.
  - intros [= _ <-]. now left.
Qed.

Lemma to_unsigned_range bits v : 0 <= bits -> 0 <= to_unsigned bits v < 2 ^ bits.
Proof.
  intros Hb. unfold to_unsigned. apply Z.mod_pos_bound. apply Z.pow_pos_nonneg; lia.
Qed.

Lemma to_unsigned_small bits v : 0 <= v < 2 ^ bits -> to_unsigned bits v = v.
Proof. intros H. unfold to_unsigned. apply Z.mod_small. exact H. Qed.

Lemma to_unsigned_fits bits v :
  0 <= bits -> (to_unsigned bits v = v <-> 0 <= v < 2 ^ bits).
Proof.
  intros Hb. split.
  - intros <-. apply to_unsigned_range. exact Hb.
  - apply to_unsigned_small.
Qed.

Lemma to_signed_16_of_u16 v :
  0 <= v < 65536 ->
  to_signed 16 v = if v <? 32768 then v else v - 65536.
Proof.
  intros H. unfold to_signed. change (2 ^ 16) with 65536.
  change (2 ^ (16 - 1)) with 32768. rewrite Z.mod_small by lia. reflexivity.
Qed.

(** The rules of [wp], one per operation of the monad. *)

Lemma wp_ret {A} (a : A) Q s : Q (Normal a) s -> wp (ret a) Q s.
Proof. exact (fun H => H). Qed.

Lemma wp_error {A} (e : failure) (Q : outcome A -> locals -> Prop) s :
  Q (Thrown e) s -> wp (error e) Q s.
Proof. exact (fun H => H). Qed.

Lemma wp_bind {A B} (m : M A) (k : A -> M B) Q s :
  wp m (fun r s' =>
          match r with
          | Normal a => wp (k a) Q s'
          | Thrown e => Q (Thrown e) s'
          end) s ->
  wp (bind m k) Q s.
Proof.
  unfold wp, bind. destruct (m s) as [[a|e] s']; cbn [fst snd]; auto.
Qed.

Lemma wp_field {A} (proj : comp_unit_head -> A) Q s :
  Q (Normal (proj (cu_header s))) s -> wp (field proj) Q s.
Proof. exact (fun H => H). Qed.

Lemma wp_assign upd Q s :
  Q (Normal tt)
    {| cu_header := upd (cu_header s); info_ptr := info_ptr s;
       section_kind := section_kind s |} ->
  wp (assign upd) Q s.
Proof. exact (fun H => H). Qed.

Lemma wp_get_section_kind Q s :
  Q (Normal (section_kind s)) s -> wp get_section_kind Q s.
Proof. exact (fun H => H). Qed.

Lemma wp_set_section_kind k Q s :
  Q (Normal tt)
    {| cu_header := cu_header s; info_ptr := info_ptr s; section_kind := k |} ->
  wp (set_section_kind k) Q s.
Proof. exact (fun H => H). Qed.

Lemma wp_advance n Q s :
  Q (Normal tt)
    {| cu_header := cu_header s; info_ptr := info_ptr s + n;
       section_kind := section_kind s |} ->
  wp (advance n) Q s.
Proof. exact (fun H => H). Qed.

Lemma wp_read_at {A} (reader : Z -> option A) Q s :
  match reader (info_ptr s) with
  | Some a => Q (Normal a) s
  | None => Q (Thrown ReadOutsideBuffer) s
  end ->
  wp (read_at reader) Q s.
Proof.
  unfold wp, read_at. destruct (reader (info_ptr s)); cbn [fst snd]; auto.
Qed.

(** Symbolic execution, one statement at a time. *)
Ltac wp_simpl :=
  cbv beta iota zeta delta
    [cu_header info_ptr section_kind id get_bfd_owner get_file_name
     bfd_get_sign_extend_vma read_offset];
  cbn beta iota delta
    [length version addr_size signed_addr_p abbrev_sect_off offset_size
     initial_length_size unit_type sect_off first_die_cu_offset signature
     type_cu_offset_in_tu
     set_length set_version set_addr_size set_signed_addr_p set_abbrev_sect_off
     set_offset_size set_initial_length_size set_unit_type set_sect_off
     set_first_die_cu_offset set_signature set_type_cu_offset_in_tu].

Ltac hdr_simpl :=
  cbn [fst snd cu_header info_ptr section_kind
       length version addr_size signed_addr_p abbrev_sect_off offset_size
       initial_length_size unit_type sect_off first_die_cu_offset signature
       type_cu_offset_in_tu
       set_length set_version set_addr_size set_signed_addr_p set_abbrev_sect_off
       set_offset_size set_initial_length_size set_unit_type set_sect_off
       set_first_die_cu_offset set_signature set_type_cu_offset_in_tu] in *.

Ltac wp_read :=
  lazymatch goal with
  | |- match (match ?r with Some _ => _ | None => _ end) with
       | Some _ => _ | None => _ end =>
      first
        [ match goal with H : r = Some _ |- _ => rewrite H end
        | let E := fresh "Hread" in destruct r eqn:E ]
  | |- match ?r with Some _ => _ | None => _ end =>
      first
        [ match goal with H : r = Some _ |- _ => rewrite H end
        | let E := fresh "Hread" in
          destruct r eqn:E;
          try match goal with x : (Z * Z)%type |- _ => destruct x end ]
  end.

Ltac wp_step :=
  lazymatch goal with
  | |- wp (bind _ _) _ _ => apply wp_bind
  | |- wp (ret _) _ _ => apply wp_ret
  | |- wp (error _) _ _ => apply wp_error
  | |- wp (internal_error _) _ _ => unfold internal_error; apply wp_error
  | |- wp (field _) _ _ => apply wp_field
  | |- wp (assign _) _ _ => apply wp_assign
  | |- wp get_section_kind _ _ => apply wp_get_section_kind
  | |- wp (set_section_kind _) _ _ => apply wp_set_section_kind
  | |- wp (advance _) _ _ => apply wp_advance
  | |- wp (read_at _) _ _ => apply wp_read_at; wp_simpl; wp_read
  | |- wp (when ?c _) _ _ =>
      unfold when;
      let E := fresh "Hcond" in destruct c eqn:E
  | |- wp (if ?c then _ else _) _ _ =>
      let E := fresh "Hcond" in destruct c eqn:E
  | |- wp (match ?k with COMPILE => _ | TYPE => _ | rcuh_invalid => _ end) _ _ =>
      let E := fresh "Hkind" in destruct k eqn:E
  | |- wp (read_comp_unit_head_body _ _) _ _ => unfold read_comp_unit_head_body
  | |- wp (read_type_offset _ _) _ _ => unfold read_type_offset
  end; wp_simpl.

Ltac wp_exec := repeat wp_step.

Lemma rcuh_kind_eqb_eq a b : rcuh_kind_eqb a b = true <-> a = b.
Proof. destruct a, b; cbn; split; congruence. Qed.

Lemma rcuh_kind_eqb_neq a b : rcuh_kind_eqb a b = false <-> a <> b.
Proof. destruct a, b; cbn; split; congruence. Qed.

Ltac unfold_unit_types :=
  unfold DW_UT_compile, DW_UT_type, DW_UT_partial, DW_UT_skeleton,
    DW_UT_split_compile, DW_UT_split_type, DW_UT_lo_user, DW_UT_hi_user in *.

(** Boolean tests in hypotheses, turned into propositions. *)
Ltac bool_hyps :=
  repeat match goal with
    | H : _ || _ = true |- _ => apply orb_true_iff in H
    | H : _ || _ = false |- _ => apply orb_false_iff in H; destruct H
    | H : _ && _ = true |- _ => apply andb_true_iff in H; destruct H
    | H : _ && _ = false |- _ => apply andb_false_iff in H
    | H : rcuh_kind_eqb _ _ = true |- _ => apply rcuh_kind_eqb_eq in H
    | H : rcuh_kind_eqb _ _ = false |- _ => apply rcuh_kind_eqb_neq in H
    | H : negb _ = true |- _ => apply negb_true_iff in H
    | H : negb _ = false |- _ => apply negb_false_iff in H
    | H : (_ >? _) = _ |- _ => rewrite Z.gtb_ltb in H
    | H : (_ >=? _) = _ |- _ => rewrite Z.geb_leb in H
    | H : (_ <? _) = true |- _ => apply Z.ltb_lt in H
    | H : (_ <? _) = false |- _ => apply Z.ltb_ge in H
    | H : (_ <=? _) = true |- _ => apply Z.leb_le in H
    | H : (_ <=? _) = false |- _ => apply Z.leb_gt in H
    | H : (_ =? _) = true |- _ => apply Z.eqb_eq in H
    | H : (_ =? _) = false |- _ => apply Z.eqb_neq in H
    | H : _ \/ _ |- _ => destruct H
    | H : _ /\ _ |- _ => destruct H
    end.

(** A read known at one position, asked for at an equal position. *)
Ltac same_read :=
  match goal with
  | H : ?f ?a ?b ?p = Some ?v |- ?f ?a ?b ?q = Some ?w =>
      replace q with p by lia; replace w with v by congruence; exact H
  | H : ?f ?a ?b ?p ?n = Some ?v |- ?f ?a ?b ?q ?n = Some ?w =>
      replace q with p by lia; replace w with v by congruence; exact H
  end.

Lemma read_comp_unit_head_wp cu_offset_bits
    (Q : outcome unit -> locals -> Prop) header ptr section kind :
  wp (read_comp_unit_head_body cu_offset_bits section) Q
     {| cu_header := header; info_ptr := ptr; section_kind := kind |} ->
  Q (fst (read_comp_unit_head_run cu_offset_bits header ptr section kind))
    (snd (read_comp_unit_head_run cu_offset_bits header ptr section kind)).
Proof. exact (fun H => H). Qed.

Lemma read_comp_unit_head_of_run cu_offset_bits header ptr section kind :
  read_comp_unit_head cu_offset_bits header ptr section kind =
  (match fst (read_comp_unit_head_run cu_offset_bits header ptr section kind) with
   | Normal _ =>
       Normal (info_ptr (snd (read_comp_unit_head_run cu_offset_bits header ptr section kind)))
   | Thrown e => Thrown e
   end,
   cu_header (snd (read_comp_unit_head_run cu_offset_bits header ptr section kind))).
Proof.
  unfold read_comp_unit_head.
  destruct (read_comp_unit_head_run cu_offset_bits header ptr section kind) as [[u|e] s];
    reflexivity.
Qed.

(** Symbolic execution of one call of the raw entry point. *)
Ltac run_exec :=
  match goal with
  | |- context [read_comp_unit_head_run ?w ?h ?p ?s ?k] =>
      pattern (fst (read_comp_unit_head_run w h p s k)),
              (snd (read_comp_unit_head_run w h p s k));
      apply read_comp_unit_head_wp
  end;
  wp_exec.

Ltac decoder_exec := rewrite ?read_comp_unit_head_of_run; run_exec.

Section DecoderFacts.

Variable cu_offset_bits : Z.

Lemma version_in_range_is_kept v :
  0 <= v < 65536 -> 2 <= to_signed 16 v <= 5 -> to_signed 16 v = v.
Proof.
  intros Hr. rewrite (to_signed_16_of_u16 v Hr).
  destruct (v <? 32768) eqn:E; bool_hyps; lia.
Qed.

Lemma version_out_of_range v :
  0 <= v < 65536 -> (to_signed 16 v < 2 \/ 5 < to_signed 16 v <-> v < 2 \/ 5 < v).
Proof.
  intros Hr. rewrite (to_signed_16_of_u16 v Hr).
  destruct (v <? 32768) eqn:E; bool_hyps; lia.
Qed.

(** C7.  The version is the 2-byte field that follows the initial length.
    The decode fails with [BadVersion] exactly when the value read is
    outside 2..5; for a value in 2..5 the header's [version] is that
    value, whatever happens later in the decode. *)
Theorem version_check header ptr section kind len bytes_read v :
  read_initial_length (bfd_owner section) (buffer section) ptr
    = Some (len, bytes_read) ->
  read_2_bytes (bfd_owner section) (buffer section) (ptr + bytes_read) = Some v ->
  let r := read_comp_unit_head cu_offset_bits header ptr section kind in
  ((exists x, fst r = Thrown (BadVersion x)) <-> (v < 2 \/ 5 < v)) /\
  (2 <= v <= 5 -> version (snd r) = v).
Proof.
  intros Hlen Hver r. subst r.
  pose proof (read_2_bytes_range _ _ _ _ Hver) as Hrange.
  pose proof (version_in_range_is_kept v Hrange) as Hkeep.
  pose proof (version_out_of_range v Hrange) as Hout.
  decoder_exec.
  all: hdr_simpl; bool_hyps.
  all: split; [split; [intros [x Hx]; try discriminate; lia | intros Hv; try (eexists; reflexivity); exfalso; lia] | intros Hv; try (apply Hkeep; lia); exfalso; lia].
Qed.

(** C1.  Version 5: the byte after the version is the unit type.  For
    [DW_UT_type] and [DW_UT_split_type] the local [section_kind] ends as
    [TYPE] whatever kind the caller passed, and no unit-type error is
    raised; for the four compile-like unit types a caller expecting a type
    unit gets [BadUnitType]; every other byte value gets [BadUnitType]
    whatever the caller expects. *)
Theorem unit_type_byte_v5 header ptr section kind len bytes_read ut :
  read_initial_length (bfd_owner section) (buffer section) ptr
    = Some (len, bytes_read) ->
  read_2_bytes (bfd_owner section) (buffer section) (ptr + bytes_read) = Some 5 ->
  read_1_byte (bfd_owner section) (buffer section) (ptr + bytes_read + 2) = Some ut ->
  let run := read_comp_unit_head_run cu_offset_bits header ptr section kind in
  let r := read_comp_unit_head cu_offset_bits header ptr section kind in
  (ut = DW_UT_type \/ ut = DW_UT_split_type ->
     section_kind (snd run) = TYPE /\
     unit_type (snd r) = ut /\
     forall x, fst r <> Thrown (BadUnitType x)) /\
  (ut = DW_UT_compile \/ ut = DW_UT_partial \/
   ut = DW_UT_skeleton \/ ut = DW_UT_split_compile ->
     kind = TYPE -> fst r = Thrown (BadUnitType ut)) /\
  (~ (DW_UT_compile <= ut <= DW_UT_split_type) ->
     fst r = Thrown (BadUnitType ut)).
Proof.
  intros Hlen Hver Hut run r. subst run r.
  decoder_exec.
  all: hdr_simpl; unfold_unit_types; try discriminate Hcond.
  all: bool_hyps; subst.
  all: repeat split; intros; bool_hyps; subst;
    try reflexivity; try discriminate; try congruence; try lia.
Qed.

(** C5.  Versions 2 to 4 with an expected kind of [COMPILE] or [TYPE]:
    the header's [unit_type] is [DW_UT_compile], respectively
    [DW_UT_type], and no byte is consumed for it: the abbreviation offset
    is the field found right after the 2-byte version, and a successful
    decode ends after length, version, abbreviation offset and address
    size (plus signature and type offset for [TYPE]). *)
Theorem unit_type_synthesized header ptr section kind len bytes_read v :
  read_initial_length (bfd_owner section) (buffer section) ptr
    = Some (len, bytes_read) ->
  read_2_bytes (bfd_owner section) (buffer section) (ptr + bytes_read) = Some v ->
  2 <= v <= 4 ->
  kind = COMPILE \/ kind = TYPE ->
  let r := read_comp_unit_head cu_offset_bits header ptr section kind in
  let osz := if bytes_read =? 4 then 4 else 8 in
  unit_type (snd r)
    = match kind with COMPILE => DW_UT_compile | _ => DW_UT_type end /\
  (forall abbrev,
     read_offset_1 (bfd_owner section) (buffer section) (ptr + bytes_read + 2) osz
       = Some abbrev ->
     abbrev_sect_off (snd r) = to_unsigned 64 abbrev) /\
  (forall q, fst r = Normal q ->
     q = ptr + bytes_read + 2 + osz + 1
         + match kind with TYPE => 8 + osz | _ => 0 end).
Proof.
  intros Hlen Hver Hv Hkind r osz. subst r osz.
  pose proof (read_2_bytes_range _ _ _ _ Hver) as Hrange.
  assert (Hs : to_signed 16 v = v).
  { rewrite (to_signed_16_of_u16 v Hrange).
    destruct (v <? 32768) eqn:E; bool_hyps; lia. }
  decoder_exec.
  all: hdr_simpl; bool_hyps; subst; try discriminate; try lia.
  all: repeat split; intros; try congruence; try lia.
  all: match goal with H : Normal _ = Normal _ |- _ => injection H as <- end; lia.
Qed.

(** C10.  Versions below 5 (2 to 4, the ones that pass the version check):
    a [section_kind] that is neither [COMPILE] nor [TYPE] ends in the
    internal error of the [default:] label, which is not one of the DWARF
    decode failures; with [COMPILE] or [TYPE] that internal error is never
    raised, whatever the input. *)
Theorem invalid_section_kind_is_internal_error
    header ptr section kind len bytes_read v :
  read_initial_length (bfd_owner section) (buffer section) ptr
    = Some (len, bytes_read) ->
  read_2_bytes (bfd_owner section) (buffer section) (ptr + bytes_read) = Some v ->
  2 <= v <= 4 ->
  let r := read_comp_unit_head cu_offset_bits header ptr section kind in
  let invalid_kind := InternalError "read_comp_unit_head: invalid section_kind" in
  (kind <> COMPILE -> kind <> TYPE -> fst r = Thrown invalid_kind) /\
  (kind = COMPILE \/ kind = TYPE ->
     forall header' ptr' section',
       fst (read_comp_unit_head cu_offset_bits header' ptr' section' kind)
         <> Thrown invalid_kind).
Proof.
  intros Hlen Hver Hv r invalid_kind. subst r invalid_kind.
  pose proof (read_2_bytes_range _ _ _ _ Hver) as Hrange.
  assert (Hs : to_signed 16 v = v).
  { rewrite (to_signed_16_of_u16 v Hrange).
    destruct (v <? 32768) eqn:E; bool_hyps; lia. }
  split.
  - intros Hc Ht.
    decoder_exec.
    all: hdr_simpl; bool_hyps; subst; try congruence; try lia.
  - intros Hkind header' ptr' section'.
    decoder_exec.
    all: hdr_simpl; bool_hyps; subst; try congruence; try discriminate.
Qed.

(** C6.  A successful decode, by exhaustive cases on the final
    [section_kind] and the unit type.  [sig_pos] is where the fields common
    to every unit end.  Type-like: the 8-byte signature is read there and
    the type offset, [offset_size] bytes wide, right after it.  Not
    type-like but skeleton or split-compile: the signature is read and no
    type offset.  Otherwise neither is read: both fields are left as the
    caller passed them and the cursor stops at [sig_pos]. *)
Theorem optional_fields header ptr section kind :
  let abfd := bfd_owner section in
  let buf := buffer section in
  let run := read_comp_unit_head_run cu_offset_bits header ptr section kind in
  let h' := cu_header (snd run) in
  let ek := section_kind (snd run) in
  let sig_pos :=
    ptr + initial_length_size h' + 2 + offset_size h'
    + (if version h' <? 5 then 1 else 2) in
  fst run = Normal tt ->
  (ek = TYPE ->
     read_8_bytes abfd buf sig_pos = Some (signature h') /\
     read_offset_1 abfd buf (sig_pos + 8) (offset_size h')
       = Some (type_cu_offset_in_tu h') /\
     info_ptr (snd run) = sig_pos + 8 + offset_size h') /\
  (ek <> TYPE ->
   unit_type h' = DW_UT_skeleton \/ unit_type h' = DW_UT_split_compile ->
     read_8_bytes abfd buf sig_pos = Some (signature h') /\
     type_cu_offset_in_tu h' = type_cu_offset_in_tu header /\
     info_ptr (snd run) = sig_pos + 8) /\
  (ek <> TYPE ->
   unit_type h' <> DW_UT_skeleton -> unit_type h' <> DW_UT_split_compile ->
     signature h' = signature header /\
     type_cu_offset_in_tu h' = type_cu_offset_in_tu header /\
     info_ptr (snd run) = sig_pos).
Proof.
  intros abfd buf run h' ek sig_pos. subst abfd buf run h' ek sig_pos.
  run_exec.
  all: hdr_simpl; intros Hok; try discriminate Hok; clear Hok.
  all: bool_hyps; subst.
  all: repeat match goal with
         | H : ?c = _ |- context [if ?c then _ else _] => rewrite H
         | H : ?a < 5 |- context [?a <? 5] =>
             replace (a <? 5) with true by (symmetry; apply Z.ltb_lt; exact H)
         | H : 5 <= ?a |- context [?a <? 5] =>
             replace (a <? 5) with false by (symmetry; apply Z.ltb_ge; exact H)
         end.
  all: unfold_unit_types.
  all: repeat split; intros; bool_hyps; try congruence; try lia.
  all: same_read.
Qed.

(** C9.  The raw entry point looks at the section's buffer and at its
    owning object file only: two sections that agree on these two, whatever
    their [size] (and display name), give the same outcome, the same cursor
    and the same header.  The abbreviation section is not even a parameter
    of the raw entry point. *)
Theorem raw_decode_ignores_section_sizes header ptr section section' kind :
  buffer section = buffer section' ->
  bfd_owner section = bfd_owner section' ->
  read_comp_unit_head cu_offset_bits header ptr section kind
  = read_comp_unit_head cu_offset_bits header ptr section' kind.
Proof.
  intros Hbuf Hbfd.
  unfold read_comp_unit_head, read_comp_unit_head_run, read_comp_unit_head_body,
    read_type_offset, get_bfd_owner.
  rewrite Hbuf, Hbfd. reflexivity.
Qed.

(** What the raw decode leaves alone, and the range of the length it
    stores. *)
Lemma raw_decode_frame header ptr section kind :
  let r := read_comp_unit_head cu_offset_bits header ptr section kind in
  sect_off (snd r) = sect_off header /\
  first_die_cu_offset (snd r) = first_die_cu_offset header /\
  (forall q, fst r = Normal q -> 0 <= length (snd r) < 2 ^ 32).
Proof.
  intros r. subst r.
  decoder_exec.
  all: hdr_simpl; repeat split; try discriminate; intros.
  all: apply to_unsigned_range; lia.
Qed.

Lemma read_and_check_of_raw header section abbrev_section ptr kind r h1 :
  read_comp_unit_head cu_offset_bits (set_sect_off (to_unsigned 64 ptr) header)
    ptr section kind = (r, h1) ->
  read_and_check_comp_unit_head cu_offset_bits header section abbrev_section ptr kind
  = match r with
    | Thrown e => (Thrown e, h1)
    | Normal q =>
        let h2 :=
          set_first_die_cu_offset (to_unsigned cu_offset_bits (q - ptr)) h1 in
        match error_check_comp_unit_head h2 section abbrev_section with
        | Thrown e => (Thrown e, h2)
        | Normal _ => (Normal q, h2)
        end
    end.
Proof.
  intros E. unfold read_and_check_comp_unit_head. rewrite E.
  destruct r; reflexivity.
Qed.

Lemma no_wrap_64 a b :
  0 <= a < 2 ^ 64 - 2 ^ 32 -> 0 <= b < 2 ^ 32 ->
  to_unsigned 64 (to_unsigned 64 a + b) = a + b.
Proof.
  intros Ha Hb. rewrite (to_unsigned_small 64 a) by lia.
  apply to_unsigned_small. lia.
Qed.

Lemma total_length_no_wrap hd :
  0 <= sect_off hd < 2 ^ 64 - 2 ^ 32 ->
  0 <= initial_length_size hd + length hd < 2 ^ 32 ->
  to_unsigned 64 (to_unsigned 64 (sect_off hd) + get_length hd)
  = sect_off hd + initial_length_size hd + length hd.
Proof.
  intros Hoff Htotal. unfold get_length.
  rewrite (to_unsigned_small 32) by exact Htotal.
  rewrite no_wrap_64 by assumption. lia.
Qed.

(** C3, as the code has it.  The validator compares [sect_off +
    get_length ()] with the section size, and [get_length] is the total
    length of the unit, [initial_length_size + length].  For a unit whose
    total length is below 2^32 and a section offset below 2^64 - 2^32 the
    sum, taken in 64-bit unsigned arithmetic, does not wrap; the validator
    passes the length check exactly when [sect_off + initial_length_size +
    length <= size], and fails with [BadUnitLength] exactly when the sum
    is larger.  Through the checked entry point: once the raw decode has
    succeeded and the abbreviation offset is in range, the call returns
    the cursor exactly when [ptr + initial_length_size + length <= size]
    and throws [BadUnitLength] otherwise. *)
Theorem unit_length_check header section abbrev_section ptr kind :
  0 <= ptr < 2 ^ 63 ->
  (forall hd,
     0 <= sect_off hd < 2 ^ 64 - 2 ^ 32 ->
     0 <= initial_length_size hd + length hd < 2 ^ 32 ->
     abbrev_sect_off hd < get_size abbrev_section ->
     to_unsigned 64 (to_unsigned 64 (sect_off hd) + get_length hd)
       = sect_off hd + initial_length_size hd + length hd /\
     (error_check_comp_unit_head hd section abbrev_section = Normal tt
        <-> sect_off hd + initial_length_size hd + length hd <= size section) /\
     (error_check_comp_unit_head hd section abbrev_section
        = Thrown (BadUnitLength (length hd))
        <-> size section < sect_off hd + initial_length_size hd + length hd)) /\
  (forall q h1,
     read_comp_unit_head cu_offset_bits (set_sect_off (to_unsigned 64 ptr) header)
       ptr section kind = (Normal q, h1) ->
     abbrev_sect_off h1 < get_size abbrev_section ->
     0 <= initial_length_size h1 + length h1 < 2 ^ 32 ->
     let r := read_and_check_comp_unit_head cu_offset_bits header section
                abbrev_section ptr kind in
     sect_off (snd r) = ptr /\ length (snd r) = length h1 /\
     initial_length_size (snd r) = initial_length_size h1 /\
     (fst r = Normal q
        <-> ptr + initial_length_size h1 + length h1 <= size section) /\
     (fst r = Thrown (BadUnitLength (length h1))
        <-> size section < ptr + initial_length_size h1 + length h1)).
Proof.
  intros Hptr.
  assert (Hvalidator : forall hd,
     0 <= sect_off hd < 2 ^ 64 - 2 ^ 32 ->
     0 <= initial_length_size hd + length hd < 2 ^ 32 ->
     abbrev_sect_off hd < get_size abbrev_section ->
     to_unsigned 64 (to_unsigned 64 (sect_off hd) + get_length hd)
       = sect_off hd + initial_length_size hd + length hd /\
     (error_check_comp_unit_head hd section abbrev_section = Normal tt
        <-> sect_off hd + initial_length_size hd + length hd <= size section) /\
     (error_check_comp_unit_head hd section abbrev_section
        = Thrown (BadUnitLength (length hd))
        <-> size section < sect_off hd + initial_length_size hd + length hd)).
  { intros hd Hoff Htotal Habbrev.
    pose proof (total_length_no_wrap hd Hoff Htotal) as Hsum.
    split; [exact Hsum|].
    unfold error_check_comp_unit_head. rewrite Hsum.
    destruct (abbrev_sect_off hd >=? get_size abbrev_section) eqn:Ea;
      bool_hyps; [lia|].
    destruct (sect_off hd + initial_length_size hd + length hd >? size section)
      eqn:El; bool_hyps;
      split; split; intros; try discriminate; try reflexivity; try lia. }
  split; [exact Hvalidator|].
  intros q h1 Hraw Habbrev Htotal r. subst r.
  rewrite (read_and_check_of_raw _ _ _ _ _ _ _ Hraw). cbv zeta.
  pose proof (raw_decode_frame (set_sect_off (to_unsigned 64 ptr) header)
                ptr section kind) as Hframe.
  rewrite Hraw in Hframe. cbn [fst snd] in Hframe.
  destruct Hframe as (Hso & _ & _).
  cbn [sect_off set_sect_off] in Hso.
  assert (Hp64 : (2 ^ 63 < 2 ^ 64 - 2 ^ 32)) by (vm_compute; reflexivity).
  rewrite to_unsigned_small in Hso by lia.
  set (h2 := set_first_die_cu_offset (to_unsigned cu_offset_bits (q - ptr)) h1).
  assert (E1 : sect_off h2 = ptr) by (subst h2; hdr_simpl; exact Hso).
  assert (E2 : length h2 = length h1) by (subst h2; reflexivity).
  assert (E3 : abbrev_sect_off h2 = abbrev_sect_off h1) by (subst h2; reflexivity).
  assert (E4 : initial_length_size h2 = initial_length_size h1)
    by (subst h2; reflexivity).
  destruct (Hvalidator h2) as (_ & Hpass & Hfail); try lia.
  rewrite E1, E2, E4 in Hpass, Hfail.
  destruct (error_check_comp_unit_head h2 section abbrev_section) as [[]|e] eqn:Ec;
    cbn [fst snd]; (split; [exact E1|]); (split; [exact E2|]);
    (split; [exact E4|]); split.
  - split; intros; [apply Hpass; reflexivity | reflexivity].
  - split; intros H; [discriminate H | apply Hfail in H; discriminate H].
  - split; intros H; [discriminate H | apply Hpass in H; discriminate H].
  - split; intros H.
    + apply Hfail. congruence.
    + apply Hfail in H. congruence.
Qed.

(** C4.  The abbreviation-offset check.  The validator fails with
    [BadAbbrevOffset] exactly when [abbrev_sect_off >= size] of the
    abbreviation section; an offset of [size - 1] passes the check and
    an offset of [size] fails it.  Through the checked entry point, once
    the raw decode has succeeded, the call throws [BadAbbrevOffset]
    exactly when the decoded offset is not below that size. *)
Theorem abbrev_offset_check header section abbrev_section ptr kind :
  (forall hd,
     (error_check_comp_unit_head hd section abbrev_section
        = Thrown (BadAbbrevOffset (abbrev_sect_off hd))
        <-> get_size abbrev_section <= abbrev_sect_off hd) /\
     ((forall x, error_check_comp_unit_head hd section abbrev_section
                   <> Thrown (BadAbbrevOffset x))
        <-> abbrev_sect_off hd < get_size abbrev_section)) /\
  (forall hd, abbrev_sect_off hd = get_size abbrev_section - 1 ->
     forall x, error_check_comp_unit_head hd section abbrev_section
                 <> Thrown (BadAbbrevOffset x)) /\
  (forall hd, abbrev_sect_off hd = get_size abbrev_section ->
     error_check_comp_unit_head hd section abbrev_section
       = Thrown (BadAbbrevOffset (abbrev_sect_off hd))) /\
  (forall q h1,
     read_comp_unit_head cu_offset_bits (set_sect_off (to_unsigned 64 ptr) header)
       ptr section kind = (Normal q, h1) ->
     let r := read_and_check_comp_unit_head cu_offset_bits header section
                abbrev_section ptr kind in
     (fst r = Thrown (BadAbbrevOffset (abbrev_sect_off h1))
        <-> get_size abbrev_section <= abbrev_sect_off h1) /\
     (fst r = Normal q -> abbrev_sect_off (snd r) < get_size abbrev_section)).
Proof.
  assert (Hvalidator : forall hd,
     (error_check_comp_unit_head hd section abbrev_section
        = Thrown (BadAbbrevOffset (abbrev_sect_off hd))
        <-> get_size abbrev_section <= abbrev_sect_off hd) /\
     ((forall x, error_check_comp_unit_head hd section abbrev_section
                   <> Thrown (BadAbbrevOffset x))
        <-> abbrev_sect_off hd < get_size abbrev_section)).
  { intros hd. unfold error_check_comp_unit_head.
    destruct (abbrev_sect_off hd >=? get_size abbrev_section) eqn:Ea; bool_hyps.
    - split; split; intros; try reflexivity; try lia.
      exfalso. eapply H. reflexivity.
    - destruct (to_unsigned 64 (to_unsigned 64 (sect_off hd) + get_length hd)
                >? size section);
        split; split; intros; try discriminate; try lia. }
  split; [exact Hvalidator|].
  split; [intros hd Hd; apply (Hvalidator hd); lia|].
  split; [intros hd Hd; apply (Hvalidator hd); lia|].
  intros q h1 Hraw r. subst r.
  rewrite (read_and_check_of_raw _ _ _ _ _ _ _ Hraw). cbv zeta.
  set (h2 := set_first_die_cu_offset (to_unsigned cu_offset_bits (q - ptr)) h1).
  assert (E3 : abbrev_sect_off h2 = abbrev_sect_off h1) by (subst h2; reflexivity).
  destruct (Hvalidator h2) as (Hfail & Hpass). rewrite E3 in Hfail, Hpass.
  destruct (error_check_comp_unit_head h2 section abbrev_section) as [[]|e] eqn:Ec;
    cbn [fst snd]; rewrite ?E3; split.
  - split; intros H; [discriminate H | apply Hfail in H; discriminate H].
  - intros _. apply Hpass. intros x; discriminate.
  - split; intros H.
    + apply Hfail. congruence.
    + apply Hfail in H. congruence.
  - intros H; discriminate H.
Qed.

Lemma to_unsigned_11 bits : 4 <= bits -> to_unsigned bits 11 = 11.
Proof.
  intros Hb. apply to_unsigned_small.
  assert (2 ^ 4 <= 2 ^ bits) by (apply Z.pow_le_mono_r; lia).
  change (2 ^ 4) with 16 in *. lia.
Qed.

Lemma to_unsigned_8_byte abfd buf p a :
  read_1_byte abfd buf p = Some a -> to_unsigned 8 a = a.
Proof.
  intros H. apply read_1_byte_range in H. apply to_unsigned_small.
  change (2 ^ 8) with 256. exact H.
Qed.

(** C8.  Where [addr_size] sits.  In a successful decode of version 2 to
    4 the abbreviation offset is the field right after the version and the
    address size is the byte right after the abbreviation offset; in
    version 5 the unit type is the byte after the version, the address
    size the byte after that, and the abbreviation offset comes third.
    Consequently a version-4 compile unit with a 4-byte initial length,
    read through the checked entry point, has its first DIE at offset 11,
    4-byte offsets, unit type [DW_UT_compile], and neither a signature nor
    a type offset: both fields are as the caller passed them and the
    cursor has moved by 11. *)
Theorem address_size_position header ptr section abbrev_section kind :
  4 <= cu_offset_bits ->
  let abfd := bfd_owner section in
  let buf := buffer section in
  let run := read_comp_unit_head_run cu_offset_bits header ptr section kind in
  let h' := cu_header (snd run) in
  let after_version := ptr + initial_length_size h' + 2 in
  let checked := read_and_check_comp_unit_head cu_offset_bits header section
                   abbrev_section ptr kind in
  (fst run = Normal tt -> version h' < 5 ->
     (exists a, read_offset_1 abfd buf after_version (offset_size h') = Some a /\
                abbrev_sect_off h' = to_unsigned 64 a) /\
     read_1_byte abfd buf (after_version + offset_size h') = Some (addr_size h')) /\
  (fst run = Normal tt -> version h' = 5 ->
     read_1_byte abfd buf after_version = Some (unit_type h') /\
     read_1_byte abfd buf (after_version + 1) = Some (addr_size h') /\
     (exists a, read_offset_1 abfd buf (after_version + 2) (offset_size h') = Some a /\
                abbrev_sect_off h' = to_unsigned 64 a)) /\
  (forall q, fst checked = Normal q ->
     version (snd checked) = 4 -> kind = COMPILE ->
     initial_length_size (snd checked) = 4 ->
     first_die_cu_offset (snd checked) = 11 /\
     q = ptr + 11 /\
     offset_size (snd checked) = 4 /\
     unit_type (snd checked) = DW_UT_compile /\
     signature (snd checked) = signature header /\
     type_cu_offset_in_tu (snd checked) = type_cu_offset_in_tu header).
Proof.
  intros Hbits abfd buf run h' after_version checked.
  subst abfd buf run h' after_version checked.
  pose proof (to_unsigned_11 cu_offset_bits Hbits) as H11.
  split; [|split].
  - decoder_exec.
    all: hdr_simpl; intros Hok Hv; try discriminate Hok; clear Hok.
    all: bool_hyps; try lia.
    all: split; [eexists; split; [eassumption | reflexivity]|].
    all: match goal with
         | H : read_1_byte _ _ _ = Some ?a |- context [to_unsigned 8 ?a] =>
             rewrite (to_unsigned_8_byte _ _ _ _ H)
         end.
    all: same_read.
  - decoder_exec.
    all: hdr_simpl; intros Hok Hv; try discriminate Hok; clear Hok.
    all: bool_hyps; try lia.
    all: repeat match goal with
         | H : read_1_byte _ _ _ = Some ?a |- context [to_unsigned 8 ?a] =>
             rewrite (to_unsigned_8_byte _ _ _ _ H)
         end.
    all: split; [same_read|]; split; [same_read|].
    all: eexists; split; [|reflexivity]; same_read.
  - unfold read_and_check_comp_unit_head.
    rewrite read_comp_unit_head_of_run.
    run_exec.
    all: hdr_simpl; intros q Hok; try discriminate Hok.
    all: match type of Hok with
         | context [error_check_comp_unit_head ?h ?s ?a] =>
             destruct (error_check_comp_unit_head h s a); hdr_simpl;
             try discriminate Hok
         end.
    all: injection Hok as <-; intros Hv Hk Hils; bool_hyps; subst;
      try discriminate; try lia.
    all: hdr_simpl; change (4 =? 4) with true; cbv iota.
    all: replace (ptr + 4 + 2 + 4 + 1 - ptr) with 11 by lia.
    all: repeat split; try reflexivity; try lia; try exact H11.
Qed.

End DecoderFacts.

Lemma fits_32_test v :
  negb (to_unsigned 32 v =? v) = negb ((0 <=? v) && (v <? 2 ^ 32)).
Proof.
  f_equal.
  assert (Hfit : to_unsigned 32 v = v <-> 0 <= v < 2 ^ 32)
    by (apply to_unsigned_fits; lia).
  destruct (to_unsigned 32 v =? v) eqn:E1;
    destruct ((0 <=? v) && (v <? 2 ^ 32)) eqn:E2; try reflexivity; exfalso.
  - apply Z.eqb_eq in E1. apply Hfit in E1.
    apply andb_false_iff in E2 as [E2|E2]; bool_hyps; lia.
  - apply Z.eqb_neq in E1. apply E1, Hfit.
    apply andb_true_iff in E2 as [E2 E3]. bool_hyps. lia.
Qed.

(** C2, as the code has it.  The cast is to [cu_offset], 32 bits wide
    whatever the unit's [offset_size] is.  The guarded block, once it has
    read the offset [v], ends normally when [0 <= v < 2^32] and throws
    [TypeOffsetTooLarge v] otherwise.  In a whole decode: a type-like
    success stored an offset below 2^32, unchanged; and
    [TypeOffsetTooLarge] is raised only for a type-like unit with 8-byte
    offsets whose type offset is outside the 32-bit range, since a 4-byte
    offset always fits. *)
Theorem type_offset_narrowing header ptr section kind :
  let abfd := bfd_owner section in
  let buf := buffer section in
  let run := read_comp_unit_head_run 32 header ptr section kind in
  let h' := cu_header (snd run) in
  let osz := offset_size h' in
  (forall s v,
     read_offset_1 abfd buf (info_ptr s) (offset_size (cu_header s)) = Some v ->
     fst (read_type_offset 32 section s)
     = if (0 <=? v) && (v <? 2 ^ 32) then Normal tt
       else Thrown (TypeOffsetTooLarge v)) /\
  (fst run = Normal tt -> section_kind (snd run) = TYPE ->
     exists v,
       read_offset_1 abfd buf (info_ptr (snd run) - osz) osz = Some v /\
       0 <= v < 2 ^ 32 /\ type_cu_offset_in_tu h' = v) /\
  (forall v, fst run = Thrown (TypeOffsetTooLarge v) ->
     section_kind (snd run) = TYPE /\ osz = 8 /\
     read_offset_1 abfd buf (info_ptr (snd run) - 8) 8 = Some v /\
     ~ (0 <= v < 2 ^ 32)).
Proof.
  intros abfd buf run h' osz. subst abfd buf run h' osz.
  split; [|split].
  - intros [h p k] v Hv. cbn [info_ptr cu_header] in Hv.
    change (wp (read_type_offset 32 section)
              (fun r _ => r = if (0 <=? v) && (v <? 2 ^ 32) then Normal tt
                              else Thrown (TypeOffsetTooLarge v))
              {| cu_header := h; info_ptr := p; section_kind := k |}).
    wp_exec.
    all: rewrite fits_32_test in Hcond.
    all: destruct ((0 <=? v) && (v <? 2 ^ 32)); try discriminate Hcond; reflexivity.
  - run_exec.
    all: hdr_simpl; intros Hok Hk; try discriminate Hok; clear Hok.
    all: bool_hyps; subst; try congruence.
    all: match goal with
         | H : to_unsigned 32 ?v = ?v |- _ =>
             exists v; split; [|split; [apply (to_unsigned_fits 32 v); [lia|exact H]|exact H]]
         end.
    all: rewrite Z.add_simpl_r; assumption.
  - run_exec.
    all: hdr_simpl; intros v Hthrown; try discriminate Hthrown.
    all: injection Hthrown as <-.
    all: bool_hyps; subst; try discriminate.
    all: match goal with
         | |- context [if ?c then 4 else 8] => destruct c eqn:?
         end.
    all: match goal with
         | H : read_offset_1 _ _ _ 4 = Some ?v, N : to_unsigned 32 ?v <> ?v |- _ =>
             exfalso; apply N, to_unsigned_small, (read_offset_1_range_4 _ _ _ _ H)
         | N : to_unsigned 32 ?v <> ?v |- _ =>
             repeat split;
             [ rewrite Z.add_simpl_r; assumption
             | intros Hfit; apply N, to_unsigned_small, Hfit ]
         end.
Qed.

(** ** The theorems at sample units *)

Lemma v4_compile_unit_raw size :
  read_comp_unit_head 32 (set_sect_off (to_unsigned 64 0) header_zero) 0
    (section_of v4_compile_unit size) COMPILE
  = (Normal 11, v4_compile_header).
Proof. vm_compute. reflexivity. Defined.

Lemma version_check_witness :
  let section := section_of v4_compile_unit 24 in
  let r := read_comp_unit_head 32 header_zero 0 section COMPILE in
  read_2_bytes (bfd_owner section) (buffer section) (0 + 4) = Some 4 /\
  (forall x, fst r <> Thrown (BadVersion x)) /\ version (snd r) = 4.
Proof.
  intros section r.
  split; [reflexivity|].
  destruct (version_check 32 header_zero 0 section COMPILE 20 4 4
              eq_refl eq_refl) as [Hiff Hkept].
  split.
  - intros x Hx.
    assert (4 < 2 \/ 5 < 4) as Hout by (apply Hiff; exists x; exact Hx). lia.
  - apply Hkept. lia.
Defined.

Lemma unit_type_byte_v5_witness :
  section_kind
    (snd (read_comp_unit_head_run 32 header_zero 0
            (section_of (v5_unit x02) 24) COMPILE)) = TYPE /\
  fst (read_comp_unit_head 32 header_zero 0 (section_of (v5_unit x01) 24) TYPE)
    = Thrown (BadUnitType DW_UT_compile) /\
  fst (read_comp_unit_head 32 header_zero 0 (section_of (v5_unit x80) 24) COMPILE)
    = Thrown (BadUnitType DW_UT_lo_user).
Proof.
  split; [|split].
  - destruct (unit_type_byte_v5 32 header_zero 0 (section_of (v5_unit x02) 24)
                COMPILE 20 4 DW_UT_type eq_refl eq_refl eq_refl)
      as (Htype & _ & _).
    apply Htype. left. reflexivity.
  - destruct (unit_type_byte_v5 32 header_zero 0 (section_of (v5_unit x01) 24)
                TYPE 20 4 DW_UT_compile eq_refl eq_refl eq_refl)
      as (_ & Hcompile & _).
    apply Hcompile; [left|]; reflexivity.
  - destruct (unit_type_byte_v5 32 header_zero 0 (section_of (v5_unit x80) 24)
                COMPILE 20 4 DW_UT_lo_user eq_refl eq_refl eq_refl)
      as (_ & _ & Hother).
    apply Hother. unfold DW_UT_compile, DW_UT_split_type, DW_UT_lo_user. lia.
Defined.

Lemma unit_type_synthesized_witness :
  let section := section_of v4_compile_unit 24 in
  2 <= 4 <= 4 /\
  unit_type (snd (read_comp_unit_head 32 header_zero 0 section COMPILE))
    = DW_UT_compile /\
  unit_type (snd (read_comp_unit_head 32 header_zero 0 section TYPE))
    = DW_UT_type.
Proof.
  intros section. split; [lia|]. split.
  - destruct (unit_type_synthesized 32 header_zero 0 section COMPILE 20 4 4
                eq_refl eq_refl) as (Hut & _); [lia | left; reflexivity |].
    exact Hut.
  - destruct (unit_type_synthesized 32 header_zero 0 section TYPE 20 4 4
                eq_refl eq_refl) as (Hut & _); [lia | right; reflexivity |].
    exact Hut.
Defined.

Lemma invalid_section_kind_witness :
  let section := section_of v4_compile_unit 24 in
  2 <= 4 <= 4 /\
  fst (read_comp_unit_head 32 header_zero 0 section rcuh_invalid)
    = Thrown (InternalError "read_comp_unit_head: invalid section_kind").
Proof.
  intros section. split; [lia|].
  destruct (invalid_section_kind_is_internal_error 32 header_zero 0 section
              rcuh_invalid 20 4 4 eq_refl eq_refl) as (Hinvalid & _); [lia|].
  apply Hinvalid; discriminate.
Defined.

Lemma optional_fields_witness :
  let section := section_of (v5_unit x02) 24 in
  let run := read_comp_unit_head_run 32 header_zero 0 section COMPILE in
  fst run = Normal tt /\
  read_8_bytes elf_le (v5_unit x02) 12 = Some (signature (cu_header (snd run))) /\
  read_offset_1 elf_le (v5_unit x02) 20 4
    = Some (type_cu_offset_in_tu (cu_header (snd run))) /\
  info_ptr (snd run) = 24.
Proof.
  intros section run. split; [reflexivity|].
  destruct (optional_fields 32 header_zero 0 section COMPILE eq_refl)
    as (Htype & _ & _).
  apply Htype. reflexivity.
Defined.

Lemma raw_decode_ignores_section_sizes_witness :
  read_comp_unit_head 32 header_zero 0 (section_of v4_compile_unit 24) COMPILE
  = read_comp_unit_head 32 header_zero 0 (section_of v4_compile_unit 0) COMPILE.
Proof.
  apply (raw_decode_ignores_section_sizes 32 header_zero 0
           (section_of v4_compile_unit 24) (section_of v4_compile_unit 0) COMPILE);
    reflexivity.
Defined.

Lemma unit_length_check_witness :
  let abbrev_section := section_of [x00] 1 in
  0 <= 0 < 2 ^ 63 /\
  0 <= initial_length_size v4_compile_header + length v4_compile_header < 2 ^ 32 /\
  fst (read_and_check_comp_unit_head 32 header_zero
         (section_of v4_compile_unit 24) abbrev_section 0 COMPILE) = Normal 11 /\
  fst (read_and_check_comp_unit_head 32 header_zero
         (section_of v4_compile_unit 23) abbrev_section 0 COMPILE)
    = Thrown (BadUnitLength 20).
Proof.
  intros abbrev_section.
  assert (Hptr : 0 <= 0 < 2 ^ 63) by (split; [discriminate | reflexivity]).
  assert (Htotal : 0 <= initial_length_size v4_compile_header
                        + length v4_compile_header < 2 ^ 32)
    by (split; [discriminate | reflexivity]).
  split; [exact Hptr|]. split; [exact Htotal|]. split.
  - destruct (unit_length_check 32 header_zero (section_of v4_compile_unit 24)
                abbrev_section 0 COMPILE Hptr) as [_ Hentry].
    destruct (Hentry 11 v4_compile_header (v4_compile_unit_raw 24))
      as (_ & _ & _ & Hpass & _); [reflexivity | exact Htotal |].
    apply Hpass. discriminate.
  - destruct (unit_length_check 32 header_zero (section_of v4_compile_unit 23)
                abbrev_section 0 COMPILE Hptr) as [_ Hentry].
    destruct (Hentry 11 v4_compile_header (v4_compile_unit_raw 23))
      as (_ & _ & _ & _ & Hfail); [reflexivity | exact Htotal |].
    apply Hfail. reflexivity.
Defined.

(** C3, as the design document states it, fails: the version-4 unit of
    length 20 that starts at offset 0 of a section of size 20 has
    [sect_off + length] equal to the section size, yet the checked entry
    point refuses it with [BadUnitLength]: the 4 bytes of the initial
    length count too. *)
Lemma unit_ending_at_section_length_is_refused :
  let r := read_and_check_comp_unit_head 32 header_zero
             (section_of v4_compile_unit 20) (section_of [x00] 1) 0 COMPILE in
  sect_off (snd r) + length (snd r) = size (section_of v4_compile_unit 20) /\
  abbrev_sect_off (snd r) < get_size (section_of [x00] 1) /\
  fst r = Thrown (BadUnitLength 20) /\
  (forall q, fst r <> Normal q).
Proof.
  vm_compute. repeat split; try reflexivity. intros q H. discriminate H.
Qed.

Lemma abbrev_offset_check_witness :
  let section := section_of v4_compile_unit 24 in
  (forall x,
     fst (read_and_check_comp_unit_head 32 header_zero section
            (section_of [x00] 1) 0 COMPILE) <> Thrown (BadAbbrevOffset x)) /\
  fst (read_and_check_comp_unit_head 32 header_zero section
         (section_of [] 0) 0 COMPILE) = Thrown (BadAbbrevOffset 0).
Proof.
  intros section. split.
  - destruct (abbrev_offset_check 32 header_zero section (section_of [x00] 1)
                0 COMPILE) as (_ & _ & _ & Hentry).
    destruct (Hentry 11 v4_compile_header (v4_compile_unit_raw 24))
      as [Hfail _].
    intros x Hx.
    assert (Hx' : x = 0) by (vm_compute in Hx; discriminate Hx).
    subst x. apply Hfail in Hx. vm_compute in Hx. apply Hx. reflexivity.
  - destruct (abbrev_offset_check 32 header_zero section (section_of [] 0)
                0 COMPILE) as (_ & _ & _ & Hentry).
    destruct (Hentry 11 v4_compile_header (v4_compile_unit_raw 24))
      as [Hfail _].
    apply Hfail. discriminate.
Defined.

Lemma address_size_position_witness :
  let checked :=
    read_and_check_comp_unit_head 32 header_zero (section_of v4_compile_unit 24)
      (section_of [x00] 1) 0 COMPILE in
  4 <= 32 /\
  first_die_cu_offset (snd checked) = 11 /\
  fst checked = Normal (0 + 11) /\
  offset_size (snd checked) = 4 /\
  unit_type (snd checked) = DW_UT_compile /\
  signature (snd checked) = signature header_zero /\
  type_cu_offset_in_tu (snd checked) = type_cu_offset_in_tu header_zero.
Proof.
  intros checked.
  assert (Hbits : 4 <= 32) by discriminate.
  split; [exact Hbits|].
  destruct (address_size_position 32 header_zero 0 (section_of v4_compile_unit 24)
              (section_of [x00] 1) COMPILE Hbits) as (_ & _ & Hscenario).
  destruct (Hscenario 11 eq_refl eq_refl eq_refl eq_refl)
    as (H1 & H2 & H3 & H4 & H5 & H6).
  repeat split; assumption.
Defined.

Lemma type_offset_narrowing_witness :
  let section := section_of (v5_type_unit_64 two_pow_32_le) 40 in
  let run := read_comp_unit_head_run 32 header_zero 0 section COMPILE in
  fst run = Thrown (TypeOffsetTooLarge (2 ^ 32)) /\
  section_kind (snd run) = TYPE /\
  offset_size (cu_header (snd run)) = 8 /\
  ~ (0 <= 2 ^ 32 < 2 ^ 32).
Proof.
  intros section run.
  assert (Hrun : fst run = Thrown (TypeOffsetTooLarge (2 ^ 32))) by reflexivity.
  split; [exact Hrun|].
  destruct (type_offset_narrowing header_zero 0 section COMPILE)
    as (_ & _ & Hthrown).
  destruct (Hthrown (2 ^ 32) Hrun) as (Hk & Ho & _ & Hv).
  repeat split; assumption.
Defined.

(** C2, as the design document states it, fails: a version-5 type unit in
    64-bit DWARF ([offset_size] 8) whose type offset field holds 2^32 is
    not returned; the decode throws [TypeOffsetTooLarge]. *)
Lemma type_offset_2_pow_32_with_8_byte_offsets_is_rejected :
  let section := section_of (v5_type_unit_64 two_pow_32_le) 40 in
  let r := read_comp_unit_head 32 header_zero 0 section TYPE in
  offset_size (snd r) = 8 /\
  read_offset_1 elf_le (v5_type_unit_64 two_pow_32_le) 32 8 = Some (2 ^ 32) /\
  to_unsigned (8 * offset_size (snd r)) (2 ^ 32) = 2 ^ 32 /\
  fst r = Thrown (TypeOffsetTooLarge (2 ^ 32)) /\
  (forall q, fst r <> Normal q).
Proof.
  vm_compute. repeat split; try reflexivity. intros q H. discriminate H.
Qed.

(** ** Further properties of comp-unit.c *)

(** X1.  [dwarf_unit_type_name] knows exactly the eight DW_UT values, and gives
    different values different names. *)
Theorem unit_type_names_exact_and_distinct :
  (forall ut,
     dwarf_unit_type_name ut <> None <->
     (DW_UT_compile <= ut <= DW_UT_split_type
      \/ ut = DW_UT_lo_user \/ ut = DW_UT_hi_user)) /\
  (forall a b name,
     dwarf_unit_type_name a = Some name ->
     dwarf_unit_type_name b = Some name -> a = b).
Proof.
  split.
  - intros ut. unfold dwarf_unit_type_name. unfold_unit_types.
    repeat match goal with
           | |- context [if ?c then _ else _] => destruct c eqn:?
           end; bool_hyps; split; intros; try discriminate; try lia;
      try congruence.
  - intros a b name. unfold dwarf_unit_type_name.
    repeat match goal with
           | |- context [if ?c then _ else _] => destruct c eqn:?
           end; bool_hyps; intros Ha Hb; try discriminate; try lia;
      rewrite <- Ha in Hb; try discriminate Hb; lia.
Qed.

(** Symbolic execution of a second call, in a context that already knows
    the reads and the tests of a first one. *)
Ltac wp_read_known :=
  lazymatch goal with
  | |- match (match ?r with Some _ => _ | None => _ end) with
       | Some _ => _ | None => _ end =>
      first
        [ match goal with H : r = _ |- _ => rewrite H end
        | let E := fresh "Hread" in destruct r eqn:E ]
  | |- match ?r with Some _ => _ | None => _ end =>
      first
        [ match goal with H : r = _ |- _ => rewrite H end
        | let E := fresh "Hread" in
          destruct r eqn:E;
          try match goal with x : (Z * Z)%type |- _ => destruct x end ]
  end.

Ltac wp_step_known :=
  lazymatch goal with
  | |- wp (read_at _) _ _ => apply wp_read_at; wp_simpl; wp_read_known; wp_simpl
  | |- wp (when ?c _) _ _ =>
      unfold when;
      first [ match goal with H : c = _ |- _ => rewrite H end
            | let E := fresh "Hcond" in destruct c eqn:E ];
      wp_simpl
  | |- wp (if ?c then _ else _) _ _ =>
      first [ match goal with H : c = _ |- _ => rewrite H end
            | let E := fresh "Hcond" in destruct c eqn:E ];
      wp_simpl
  | |- _ => wp_step
  end.

(** The same execution with the postcondition kept folded while the call
    runs. *)
Ltac run_exec_folded :=
  match goal with
  | |- context [read_comp_unit_head_run ?w ?h ?p ?s ?k] =>
      pattern (fst (read_comp_unit_head_run w h p s k)),
              (snd (read_comp_unit_head_run w h p s k));
      match goal with
      | |- ?post _ _ =>
          let Q := fresh "Q" in
          set (Q := post); apply read_comp_unit_head_wp;
          repeat wp_step_known; subst Q; cbv beta
      end
  end.

Lemma comp_unit_head_ext (a b : comp_unit_head) :
  length a = length b -> version a = version b ->
  addr_size a = addr_size b -> signed_addr_p a = signed_addr_p b ->
  abbrev_sect_off a = abbrev_sect_off b -> offset_size a = offset_size b ->
  initial_length_size a = initial_length_size b -> unit_type a = unit_type b ->
  sect_off a = sect_off b -> first_die_cu_offset a = first_die_cu_offset b ->
  signature a = signature b ->
  type_cu_offset_in_tu a = type_cu_offset_in_tu b ->
  a = b.
Proof.
  destruct a, b; cbn; intros; subst; reflexivity.
Qed.

(** Symbolic execution of the checked entry point. *)
Ltac checked_exec :=
  unfold read_and_check_comp_unit_head;
  rewrite read_comp_unit_head_of_run;
  run_exec.

Section MoreDecoderFacts.

Variable cu_offset_bits : Z.

(** X2.  A successful decode ends with [section_kind] either [COMPILE] or
    [TYPE]; it is [TYPE] exactly when the unit type is [DW_UT_type] or
    [DW_UT_split_type]; a compile-like result needs a caller that asked for
    [COMPILE]; below version 5 the kind is the caller's and the unit type
    is [DW_UT_compile] or [DW_UT_type]; and the unit type always has a
    name. *)
Theorem decoded_unit_type_agrees_with_kind header ptr section kind :
  let run := read_comp_unit_head_run cu_offset_bits header ptr section kind in
  let h' := cu_header (snd run) in
  let ek := section_kind (snd run) in
  fst run = Normal tt ->
  (ek = COMPILE \/ ek = TYPE) /\
  (ek = TYPE <-> unit_type h' = DW_UT_type \/ unit_type h' = DW_UT_split_type) /\
  (ek = COMPILE -> kind = COMPILE) /\
  (version h' < 5 ->
     ek = kind /\ (unit_type h' = DW_UT_compile \/ unit_type h' = DW_UT_type)) /\
  dwarf_unit_type_name (unit_type h') <> None.
Proof.
  intros run h' ek. subst run h' ek.
  run_exec.
  all: hdr_simpl; intros Hok; try discriminate Hok; clear Hok.
  all: unfold_unit_types; bool_hyps; subst; try discriminate; try lia.
  all: repeat split; intros; bool_hyps; try discriminate; try congruence;
    try lia; auto.
Qed.

(** X3.  Version 5, exactly when the unit-type byte is refused: it is not one
    of the six standard unit types, or it is a compile-like one and the
    caller did not ask for [COMPILE].  The error carries the byte. *)
Theorem bad_unit_type_exactly header ptr section kind len bytes_read ut :
  read_initial_length (bfd_owner section) (buffer section) ptr
    = Some (len, bytes_read) ->
  read_2_bytes (bfd_owner section) (buffer section) (ptr + bytes_read) = Some 5 ->
  read_1_byte (bfd_owner section) (buffer section) (ptr + bytes_read + 2) = Some ut ->
  let r := read_comp_unit_head cu_offset_bits header ptr section kind in
  ((exists x, fst r = Thrown (BadUnitType x)) <->
   (~ (DW_UT_compile <= ut <= DW_UT_split_type)
    \/ ((ut = DW_UT_compile \/ ut = DW_UT_partial \/
         ut = DW_UT_skeleton \/ ut = DW_UT_split_compile) /\ kind <> COMPILE))) /\
  (forall x, fst r = Thrown (BadUnitType x) -> x = ut).
Proof.
  intros Hlen Hver Hut r. subst r.
  decoder_exec.
  all: hdr_simpl; unfold_unit_types; change (to_signed 16 5) with 5 in *;
    try discriminate.
  all: bool_hyps; subst; try lia.
  all: split; [split|].
  all: try (intros [x Hx]; discriminate Hx).
  all: try (intros x Hx; discriminate Hx).
  all: try (intros x Hx; injection Hx as <-; reflexivity).
  all: try (intros _; eexists; reflexivity).
  all: try (intros _; lia).
  all: try (intros _; right; split; [lia | congruence]).
  all: try (intros [Hno | [Hc Hk]]; exfalso; [lia | congruence]).
  all: try (intros [Hno | [Hc Hk]]; exfalso; lia).
Qed.

(** X4.  What the raw entry point can throw, and what each failure tells.  It
    never throws the two bounds errors of the validator. *)
Theorem raw_decode_failures header ptr section kind :
  let run := read_comp_unit_head_run cu_offset_bits header ptr section kind in
  let h' := cu_header (snd run) in
  forall e, fst run = Thrown e ->
    match e with
    | BadVersion x => x = version h' /\ (x < 2 \/ 5 < x)
    | BadUnitType x =>
        version h' = 5 /\ unit_type h' = x /\
        (kind <> COMPILE \/ ~ (DW_UT_compile <= x <= DW_UT_split_type))
    | TypeOffsetTooLarge v =>
        section_kind (snd run) = TYPE /\ to_unsigned cu_offset_bits v <> v
    | InternalError message =>
        (message = "read_comp_unit_head: invalid section_kind"%string /\
         kind = rcuh_invalid /\ version h' < 5)
        \/ (message = "read_comp_unit_head: dwarf from non elf file"%string /\
            sign_extend_vma (bfd_owner section) < 0)
    | ReadOutsideBuffer => True
    | BadAbbrevOffset _ | BadUnitLength _ => False
    end.
Proof.
  intros run h'. subst run h'.
  run_exec.
  all: hdr_simpl; intros e He; try discriminate He; injection He as <-.
  all: unfold_unit_types; bool_hyps; subst; auto.
  all: repeat split; try reflexivity; try lia; try congruence; auto.
Qed.

(** X5.  An object file whose sign-extension policy is unknown
    ([bfd_get_sign_extend_vma] negative): no unit of it is ever decoded,
    and the failure comes before the signature and the type offset are
    looked at, so these two fields and [signed_addr_p] are left as the
    caller passed them. *)
Theorem unknown_sign_extension_never_decodes header ptr section kind :
  sign_extend_vma (bfd_owner section) < 0 ->
  let r := read_comp_unit_head cu_offset_bits header ptr section kind in
  (forall q, fst r <> Normal q) /\
  signed_addr_p (snd r) = signed_addr_p header /\
  signature (snd r) = signature header /\
  type_cu_offset_in_tu (snd r) = type_cu_offset_in_tu header.
Proof.
  intros Hsign r. subst r.
  decoder_exec.
  all: hdr_simpl; bool_hyps; try lia.
  all: repeat split; try reflexivity; intros q Hq; discriminate Hq.
Qed.

(** X6.  The header of a successful decode: the version is 2 to 5; the offset
    size is 4 or 8, and 4 exactly when the initial length took 4 bytes;
    the length fits 32 bits and the abbreviation offset 64 bits, 32 when
    offsets are 4 bytes wide; the address size is one byte; the
    sign-extension policy is known and recorded. *)
Theorem decoded_header_invariants header ptr section kind :
  let r := read_comp_unit_head cu_offset_bits header ptr section kind in
  let h' := snd r in
  forall q, fst r = Normal q ->
  2 <= version h' <= 5 /\
  (offset_size h' = 4 \/ offset_size h' = 8) /\
  (offset_size h' = 4 <-> initial_length_size h' = 4) /\
  0 <= length h' < 2 ^ 32 /\
  0 <= abbrev_sect_off h' < 2 ^ 64 /\
  (offset_size h' = 4 -> abbrev_sect_off h' < 2 ^ 32) /\
  0 <= addr_size h' < 256 /\
  0 <= sign_extend_vma (bfd_owner section) /\
  signed_addr_p h' = to_unsigned 8 (sign_extend_vma (bfd_owner section)).
Proof.
  intros r h'. subst r h'.
  decoder_exec.
  all: hdr_simpl; intros q Hq; try discriminate Hq; clear Hq.
  all: bool_hyps.
  all: repeat match goal with
         | |- context [if ?c then 4 else 8] =>
             let E := fresh "Hsz" in destruct c eqn:E
         | H : context [if ?c then 4 else 8] |- _ =>
             let E := fresh "Hsz" in destruct c eqn:E
         end.
  all: bool_hyps.
  all: repeat match goal with
         | H : read_offset_1 _ _ _ 4 = Some _ |- _ =>
             apply read_offset_1_range_4 in H
         end.
  all: assert (HU8 : forall a, 0 <= to_unsigned 8 a < 256)
         by (intros a0; apply (to_unsigned_range 8 a0); lia).
  all: assert (HU32 : forall a, 0 <= to_unsigned 32 a < 2 ^ 32)
         by (intros a0; apply (to_unsigned_range 32 a0); lia).
  all: assert (HU64 : forall a, 0 <= to_unsigned 64 a < 2 ^ 64)
         by (intros a0; apply (to_unsigned_range 64 a0); lia).
  all: repeat split; intros; try apply HU8; try apply HU32; try apply HU64;
    try reflexivity; try lia; auto.
  all: try (rewrite to_unsigned_small by lia; lia).
Qed.

(** X8.  A failed version check leaves the header object half written: the
    length, the two sizes and the (refused) version are already stored,
    every other field is still the caller's. *)
Theorem bad_version_leaves_partial_header
    header ptr section kind len bytes_read v :
  read_initial_length (bfd_owner section) (buffer section) ptr
    = Some (len, bytes_read) ->
  read_2_bytes (bfd_owner section) (buffer section) (ptr + bytes_read) = Some v ->
  v < 2 \/ 5 < v ->
  read_comp_unit_head cu_offset_bits header ptr section kind
  = (Thrown (BadVersion (to_signed 16 v)),
     set_version (to_signed 16 v)
       (set_offset_size (if bytes_read =? 4 then 4 else 8)
          (set_initial_length_size bytes_read
             (set_length (to_unsigned 32 len) header)))).
Proof.
  intros Hlen Hver Hv.
  pose proof (read_2_bytes_range _ _ _ _ Hver) as Hrange.
  pose proof (version_out_of_range v Hrange) as Hout.
  decoder_exec.
  all: hdr_simpl; bool_hyps; try reflexivity; exfalso; lia.
Qed.

(** X7.  The size of a unit header, read off the fields of a successful
    decode.  After the initial length the header takes 7 to 28 more bytes.
    With 4-byte offsets the initial length took 4 bytes and the header is
    11 to 24 bytes long; with 8-byte offsets the header takes 11 to 28
    bytes after the initial length. *)
Theorem header_size_bounds header ptr section kind :
  let r := read_comp_unit_head cu_offset_bits header ptr section kind in
  forall q, fst r = Normal q ->
  let rest := q - ptr - initial_length_size (snd r) in
  7 <= rest <= 28 /\
  (offset_size (snd r) = 4 -> 11 <= q - ptr <= 24) /\
  (offset_size (snd r) = 8 -> 11 <= rest).
Proof.
  intros r. subst r.
  decoder_exec.
  all: hdr_simpl; intros q Hq; try discriminate Hq; injection Hq as <-.
  all: cbv zeta.
  all: match goal with
       | |- context [if ?c then 4 else 8] => destruct c eqn:?
       end.
  all: bool_hyps; subst.
  all: repeat split; intros; try discriminate; lia.
Qed.

(** Two calls on the same bytes with different incoming headers: same
    outcome, same final locals, and field by field the two resulting
    headers are equal or both untouched. *)
Lemma raw_decode_transfer header1 header2 ptr section kind :
  let run1 := read_comp_unit_head_run cu_offset_bits header1 ptr section kind in
  let run2 := read_comp_unit_head_run cu_offset_bits header2 ptr section kind in
  let h1 := cu_header (snd run1) in
  let h2 := cu_header (snd run2) in
  let same_or_untouched (f : comp_unit_head -> Z) :=
    f h1 = f h2 \/ (f h1 = f header1 /\ f h2 = f header2) in
  fst run1 = fst run2 /\
  info_ptr (snd run1) = info_ptr (snd run2) /\
  section_kind (snd run1) = section_kind (snd run2) /\
  (same_or_untouched length /\ same_or_untouched version /\
   same_or_untouched addr_size /\ same_or_untouched signed_addr_p /\
   same_or_untouched abbrev_sect_off /\ same_or_untouched offset_size /\
   same_or_untouched initial_length_size /\ same_or_untouched unit_type /\
   same_or_untouched signature /\ same_or_untouched type_cu_offset_in_tu) /\
  (sect_off h1 = sect_off header1 /\ sect_off h2 = sect_off header2 /\
   first_die_cu_offset h1 = first_die_cu_offset header1 /\
   first_die_cu_offset h2 = first_die_cu_offset header2) /\
  (fst run1 = Normal tt ->
   length h1 = length h2 /\ version h1 = version h2 /\
   addr_size h1 = addr_size h2 /\ signed_addr_p h1 = signed_addr_p h2 /\
   abbrev_sect_off h1 = abbrev_sect_off h2 /\ offset_size h1 = offset_size h2 /\
   initial_length_size h1 = initial_length_size h2 /\
   unit_type h1 = unit_type h2).
Proof.
  intros run1 run2 h1 h2 same_or_untouched.
  subst run1 run2 h1 h2 same_or_untouched. cbv beta.
  run_exec_folded.
  all: run_exec_folded.
  all: hdr_simpl; try congruence.
  all: repeat split;
    first [ reflexivity
          | left; reflexivity
          | right; split; reflexivity
          | congruence ].
Qed.

Lemma raw_decode_transfer_pair header1 header2 ptr section kind :
  let r1 := read_comp_unit_head cu_offset_bits header1 ptr section kind in
  let r2 := read_comp_unit_head cu_offset_bits header2 ptr section kind in
  let same_or_untouched (f : comp_unit_head -> Z) :=
    f (snd r1) = f (snd r2)
    \/ (f (snd r1) = f header1 /\ f (snd r2) = f header2) in
  fst r1 = fst r2 /\
  (same_or_untouched length /\ same_or_untouched version /\
   same_or_untouched addr_size /\ same_or_untouched signed_addr_p /\
   same_or_untouched abbrev_sect_off /\ same_or_untouched offset_size /\
   same_or_untouched initial_length_size /\ same_or_untouched unit_type /\
   same_or_untouched signature /\ same_or_untouched type_cu_offset_in_tu) /\
  (sect_off (snd r1) = sect_off header1 /\ sect_off (snd r2) = sect_off header2 /\
   first_die_cu_offset (snd r1) = first_die_cu_offset header1 /\
   first_die_cu_offset (snd r2) = first_die_cu_offset header2).
Proof.
  intros r1 r2. subst r1 r2.
  rewrite !read_comp_unit_head_of_run. cbn [fst snd].
  destruct (raw_decode_transfer header1 header2 ptr section kind)
    as (Hout & Hptr & _ & Hfields & Hframe & _).
  split; [rewrite Hout, Hptr; reflexivity|].
  split; [exact Hfields | exact Hframe].
Qed.

(** X9.  The decode reads nothing from the header object it is given.  For any
    two incoming headers the outcome and the returned cursor are the same;
    after a successful decode the two headers agree on every field the
    decode always writes; the signature and the type offset are either
    written, hence equal, or untouched in both; [sect_off] and
    [first_die_cu_offset] are never touched. *)
Theorem decode_ignores_incoming_header header1 header2 ptr section kind :
  let r1 := read_comp_unit_head cu_offset_bits header1 ptr section kind in
  let r2 := read_comp_unit_head cu_offset_bits header2 ptr section kind in
  fst r1 = fst r2 /\
  sect_off (snd r1) = sect_off header1 /\
  first_die_cu_offset (snd r1) = first_die_cu_offset header1 /\
  (forall q, fst r1 = Normal q ->
     length (snd r1) = length (snd r2) /\
     version (snd r1) = version (snd r2) /\
     addr_size (snd r1) = addr_size (snd r2) /\
     signed_addr_p (snd r1) = signed_addr_p (snd r2) /\
     abbrev_sect_off (snd r1) = abbrev_sect_off (snd r2) /\
     offset_size (snd r1) = offset_size (snd r2) /\
     initial_length_size (snd r1) = initial_length_size (snd r2) /\
     unit_type (snd r1) = unit_type (snd r2) /\
     (signature (snd r1) = signature (snd r2)
      \/ (signature (snd r1) = signature header1 /\
          signature (snd r2) = signature header2)) /\
     (type_cu_offset_in_tu (snd r1) = type_cu_offset_in_tu (snd r2)
      \/ (type_cu_offset_in_tu (snd r1) = type_cu_offset_in_tu header1 /\
          type_cu_offset_in_tu (snd r2) = type_cu_offset_in_tu header2))).
Proof.
  intros r1 r2. subst r1 r2.
  rewrite !read_comp_unit_head_of_run. cbn [fst snd].
  destruct (raw_decode_transfer header1 header2 ptr section kind)
    as (Hout & Hptr & _ & Hfields & Hframe & Hok).
  destruct Hfields as (_ & _ & _ & _ & _ & _ & _ & _ & F9 & F10).
  destruct Hframe as (G1 & _ & G3 & _).
  split; [rewrite Hout, Hptr; reflexivity|].
  split; [exact G1|]. split; [exact G3|].
  intros q Hq.
  destruct (fst (read_comp_unit_head_run cu_offset_bits header1 ptr section kind))
    as [[]|e] eqn:E; [|discriminate Hq].
  destruct (Hok eq_refl) as (E1 & E2 & E3 & E4 & E5 & E6 & E7 & E8).
  repeat split; assumption.
Qed.

(** X10.  Decoding the same bytes again into the header a first call left (be
    it a success or a failure) changes nothing: same outcome, same header. *)
Theorem decode_is_idempotent header ptr section kind :
  let r := read_comp_unit_head cu_offset_bits header ptr section kind in
  read_comp_unit_head cu_offset_bits (snd r) ptr section kind = r.
Proof.
  intros r.
  destruct (raw_decode_transfer_pair (snd r) header ptr section kind)
    as (Hout & Hf & Hframe). fold r in Hout, Hf, Hframe.
  set (r' := read_comp_unit_head cu_offset_bits (snd r) ptr section kind) in *.
  destruct Hf as (F1 & F2 & F3 & F4 & F5 & F6 & F7 & F8 & F9 & F10).
  destruct Hframe as (G1 & _ & G3 & _).
  apply injective_projections; [exact Hout|].
  apply comp_unit_head_ext; try assumption.
  all: match goal with
       | H : ?f ?a = ?f ?b \/ _ |- ?f ?a = ?f ?b =>
           destruct H as [E | [E _]]; exact E
       end.
Qed.

(** X11.  How the checked entry point is put together: it is the raw entry point
    run on the caller's header, then the store of [sect_off], then, on
    success only, the store of [first_die_cu_offset] and the validator.  A
    failure of the raw decode is passed on as it is, with no validation. *)
Theorem checked_entry_point_composition header section abbrev_section ptr kind :
  let raw := read_comp_unit_head cu_offset_bits header ptr section kind in
  let checked := read_and_check_comp_unit_head cu_offset_bits header section
                   abbrev_section ptr kind in
  let located := set_sect_off (to_unsigned 64 ptr) (snd raw) in
  (forall e, fst raw = Thrown e -> checked = (Thrown e, located)) /\
  (forall q, fst raw = Normal q ->
     let h2 :=
       set_first_die_cu_offset (to_unsigned cu_offset_bits (q - ptr)) located in
     checked
     = (match error_check_comp_unit_head h2 section abbrev_section with
        | Normal _ => Normal q
        | Thrown e => Thrown e
        end, h2)).
Proof.
  intros raw checked located.
  destruct (raw_decode_transfer_pair (set_sect_off (to_unsigned 64 ptr) header)
              header ptr section kind) as (Hout & Hf & Hframe).
  fold raw in Hout, Hf, Hframe.
  set (raw' := read_comp_unit_head cu_offset_bits
                 (set_sect_off (to_unsigned 64 ptr) header) ptr section kind) in *.
  destruct Hf as (F1 & F2 & F3 & F4 & F5 & F6 & F7 & F8 & F9 & F10).
  destruct Hframe as (G1 & G2 & G3 & G4).
  cbn [sect_off set_sect_off length version addr_size signed_addr_p
       abbrev_sect_off offset_size initial_length_size unit_type
       first_die_cu_offset signature type_cu_offset_in_tu] in *.
  assert (Hhdr : snd raw' = located).
  { subst located.
    apply comp_unit_head_ext;
      cbn [sect_off set_sect_off length version addr_size signed_addr_p
           abbrev_sect_off offset_size initial_length_size unit_type
           first_die_cu_offset signature type_cu_offset_in_tu];
      try assumption; try congruence.
    all: match goal with
         | H : ?f ?a = ?f ?b \/ _ |- ?f ?a = ?f ?b =>
             destruct H as [E | [E1 E2]]; [exact E | congruence]
         end. }
  assert (Hraw' : raw' = (fst raw, located)).
  { rewrite <- Hhdr, <- Hout. destruct raw'; reflexivity. }
  subst checked.
  rewrite (read_and_check_of_raw _ _ _ _ _ _ _ _ Hraw').
  split.
  - intros e He. rewrite He. reflexivity.
  - intros q Hq. rewrite Hq. cbv zeta.
    destruct (error_check_comp_unit_head _ section abbrev_section); reflexivity.
Qed.

(** X12.  What the checked entry point adds to a header it returns: [sect_off]
    is where the unit starts, [first_die_cu_offset] is the size of the
    header, between 11 and 40, and the returned cursor is their sum. *)
Theorem checked_first_die_offset header section abbrev_section ptr kind :
  6 <= cu_offset_bits ->
  0 <= ptr < 2 ^ 64 ->
  let checked := read_and_check_comp_unit_head cu_offset_bits header section
                   abbrev_section ptr kind in
  forall q, fst checked = Normal q ->
  sect_off (snd checked) = ptr /\
  11 <= first_die_cu_offset (snd checked) <= 40 /\
  q = sect_off (snd checked) + first_die_cu_offset (snd checked).
Proof.
  intros Hbits Hptr checked. subst checked.
  assert (Hsmall : forall n, 0 <= n <= 40 -> to_unsigned cu_offset_bits n = n).
  { intros n Hn. apply to_unsigned_small.
    assert (2 ^ 6 <= 2 ^ cu_offset_bits) by (apply Z.pow_le_mono_r; lia).
    change (2 ^ 6) with 64 in *. lia. }
  pose proof (to_unsigned_small 64 ptr Hptr) as Hp64.
  checked_exec.
  all: hdr_simpl; intros q Hok; try discriminate Hok.
  all: match type of Hok with
       | context [error_check_comp_unit_head ?h ?s ?a] =>
           destruct (error_check_comp_unit_head h s a); hdr_simpl;
           try discriminate Hok
       end.
  all: injection Hok as <-.
  all: match goal with
       | H : read_initial_length _ _ _ = Some (_, ?n) |- _ =>
           destruct (read_initial_length_bytes _ _ _ _ _ H); subst n
       end.
  all: cbn [Z.eqb Pos.eqb]; rewrite Hp64.
  all: match goal with
       | |- context [to_unsigned cu_offset_bits ?n] =>
           rewrite (Hsmall n) by lia
       end.
  all: repeat split; lia.
Qed.

(** X13.  With an empty abbreviation section the checked entry point returns no
    header, whatever the unit, and the unit-length check is never the one
    that fails: a unit that decodes is refused for its abbreviation
    offset. *)
Theorem empty_abbrev_section_rejects_every_unit
    header section abbrev_section ptr kind :
  get_size abbrev_section <= 0 ->
  let checked := read_and_check_comp_unit_head cu_offset_bits header section
                   abbrev_section ptr kind in
  (forall q, fst checked <> Normal q) /\
  (forall l, fst checked <> Thrown (BadUnitLength l)).
Proof.
  intros Hsize checked. subst checked.
  assert (H64 : forall a, 0 <= to_unsigned 64 a)
    by (intros a; apply (to_unsigned_range 64 a); lia).
  checked_exec.
  all: hdr_simpl.
  all: try (split; intros x Hx; discriminate Hx).
  all: unfold error_check_comp_unit_head; hdr_simpl.
  all: match goal with
       | |- context [to_unsigned 64 ?a >=? get_size ?abb] =>
           replace (to_unsigned 64 a >=? get_size abb) with true
             by (symmetry; rewrite Z.geb_leb; apply Z.leb_le;
                 specialize (H64 a); lia)
       end.
  all: hdr_simpl; split; intros x Hx; discriminate Hx.
Qed.

End MoreDecoderFacts.

(** ** The further properties at sample units *)

Lemma unit_type_names_witness :
  dwarf_unit_type_name DW_UT_lo_user <> None /\
  (dwarf_unit_type_name DW_UT_skeleton = Some "DW_UT_skeleton (0x04)"%string ->
   forall b, dwarf_unit_type_name b = Some "DW_UT_skeleton (0x04)"%string ->
             DW_UT_skeleton = b).
Proof.
  destruct unit_type_names_exact_and_distinct as [Hnamed Hdistinct].
  split.
  - apply Hnamed. right. left. reflexivity.
  - intros Ha b Hb. exact (Hdistinct _ _ _ Ha Hb).
Defined.

Lemma decoded_unit_type_agrees_with_kind_witness :
  let run := read_comp_unit_head_run 32 header_zero 0
               (section_of (v5_unit x02) 24) COMPILE in
  fst run = Normal tt /\
  section_kind (snd run) = TYPE /\
  dwarf_unit_type_name (unit_type (cu_header (snd run))) <> None.
Proof.
  intros run.
  assert (Hok : fst run = Normal tt) by reflexivity.
  split; [exact Hok|].
  destruct (decoded_unit_type_agrees_with_kind 32 header_zero 0
              (section_of (v5_unit x02) 24) COMPILE Hok)
    as (_ & Htype & _ & _ & Hname).
  split; [|exact Hname].
  apply Htype. left. reflexivity.
Defined.

Lemma bad_unit_type_exactly_witness :
  (exists x,
     fst (read_comp_unit_head 32 header_zero 0 (section_of (v5_unit x03) 24)
            rcuh_invalid) = Thrown (BadUnitType x)) /\
  (forall x,
     fst (read_comp_unit_head 32 header_zero 0 (section_of (v5_unit x03) 24)
            COMPILE) <> Thrown (BadUnitType x)).
Proof.
  split.
  - destruct (bad_unit_type_exactly 32 header_zero 0 (section_of (v5_unit x03) 24)
                rcuh_invalid 20 4 DW_UT_partial eq_refl eq_refl eq_refl)
      as [Hiff _].
    apply Hiff. right. split; [right; left; reflexivity | discriminate].
  - destruct (bad_unit_type_exactly 32 header_zero 0 (section_of (v5_unit x03) 24)
                COMPILE 20 4 DW_UT_partial eq_refl eq_refl eq_refl)
      as [Hiff _].
    intros x Hx.
    assert (Hcase : ~ (DW_UT_compile <= DW_UT_partial <= DW_UT_split_type)
                    \/ ((DW_UT_partial = DW_UT_compile \/ DW_UT_partial = DW_UT_partial \/
                         DW_UT_partial = DW_UT_skeleton \/
                         DW_UT_partial = DW_UT_split_compile) /\ COMPILE <> COMPILE))
      by (apply Hiff; exists x; exact Hx).
    destruct Hcase as [Hout | [_ Hk]].
    + apply Hout. unfold DW_UT_compile, DW_UT_partial, DW_UT_split_type. lia.
    + apply Hk. reflexivity.
Defined.

Lemma raw_decode_failures_witness :
  let run := read_comp_unit_head_run 32 header_zero 0
               (section_of (v5_unit x80) 24) COMPILE in
  fst run = Thrown (BadUnitType DW_UT_lo_user) /\
  version (cu_header (snd run)) = 5 /\
  unit_type (cu_header (snd run)) = DW_UT_lo_user.
Proof.
  intros run.
  assert (Hthrown : fst run = Thrown (BadUnitType DW_UT_lo_user)) by reflexivity.
  split; [exact Hthrown|].
  destruct (raw_decode_failures 32 header_zero 0 (section_of (v5_unit x80) 24)
              COMPILE _ Hthrown) as (Hv & Hut & _).
  split; assumption.
Defined.

Lemma unknown_sign_extension_witness :
  let section :=
    {| buffer := v4_compile_unit; size := 24; file_name := "a.out";
       bfd_owner := unknown_sign_le |} in
  sign_extend_vma (bfd_owner section) < 0 /\
  forall q, fst (read_comp_unit_head 32 header_zero 0 section COMPILE) <> Normal q.
Proof.
  intros section.
  assert (Hsign : sign_extend_vma (bfd_owner section) < 0) by reflexivity.
  split; [exact Hsign|].
  destruct (unknown_sign_extension_never_decodes 32 header_zero 0 section COMPILE
              Hsign) as [Hnever _].
  exact Hnever.
Defined.

Lemma decoded_header_invariants_witness :
  let r := read_comp_unit_head 32 header_zero 0 (section_of v4_compile_unit 24)
             COMPILE in
  fst r = Normal 11 /\
  2 <= version (snd r) <= 5 /\
  (offset_size (snd r) = 4 <-> initial_length_size (snd r) = 4).
Proof.
  intros r.
  assert (Hok : fst r = Normal 11) by reflexivity.
  split; [exact Hok|].
  destruct (decoded_header_invariants 32 header_zero 0
              (section_of v4_compile_unit 24) COMPILE 11 Hok)
    as (Hv & _ & Hsz & _).
  split; assumption.
Defined.

Lemma bad_version_leaves_partial_header_witness :
  (6 < 2 \/ 5 < 6) /\
  read_comp_unit_head 32 header_zero 0 (section_of v6_unit 24) COMPILE
  = (Thrown (BadVersion (to_signed 16 6)),
     set_version (to_signed 16 6)
       (set_offset_size (if 4 =? 4 then 4 else 8)
          (set_initial_length_size 4
             (set_length (to_unsigned 32 20) header_zero)))).
Proof.
  split; [right; reflexivity|].
  apply (bad_version_leaves_partial_header 32 header_zero 0 (section_of v6_unit 24)
           COMPILE 20 4 6 eq_refl eq_refl).
  right. reflexivity.
Defined.

Lemma header_size_bounds_witness :
  let r := read_comp_unit_head 32 header_zero 0 (section_of (v5_unit x02) 24)
             COMPILE in
  fst r = Normal 24 /\
  7 <= 24 - 0 - initial_length_size (snd r) <= 28 /\
  (offset_size (snd r) = 4 -> 11 <= 24 - 0 <= 24).
Proof.
  intros r.
  assert (Hok : fst r = Normal 24) by reflexivity.
  split; [exact Hok|].
  destruct (header_size_bounds 32 header_zero 0 (section_of (v5_unit x02) 24)
              COMPILE 24 Hok) as (Hb & H4 & _).
  split; assumption.
Defined.

Lemma decode_ignores_incoming_header_witness :
  fst (read_comp_unit_head 32 header_zero 0 (section_of (v5_unit x04) 24) COMPILE)
  = fst (read_comp_unit_head 32 v4_compile_header 0 (section_of (v5_unit x04) 24)
           COMPILE).
Proof.
  destruct (decode_ignores_incoming_header 32 header_zero v4_compile_header 0
              (section_of (v5_unit x04) 24) COMPILE) as [Hout _].
  exact Hout.
Defined.

Lemma checked_entry_point_composition_witness :
  fst (read_comp_unit_head 32 header_zero 0 (section_of (v5_unit x80) 24) COMPILE)
    = Thrown (BadUnitType DW_UT_lo_user) /\
  fst (read_and_check_comp_unit_head 32 header_zero (section_of (v5_unit x80) 24)
         (section_of [x00] 1) 0 COMPILE)
    = Thrown (BadUnitType DW_UT_lo_user).
Proof.
  assert (Hraw : fst (read_comp_unit_head 32 header_zero 0
                        (section_of (v5_unit x80) 24) COMPILE)
                 = Thrown (BadUnitType DW_UT_lo_user)) by reflexivity.
  split; [exact Hraw|].
  destruct (checked_entry_point_composition 32 header_zero
              (section_of (v5_unit x80) 24) (section_of [x00] 1) 0 COMPILE)
    as [Hthrown _].
  rewrite (Hthrown _ Hraw). reflexivity.
Defined.

Lemma checked_first_die_offset_witness :
  let checked :=
    read_and_check_comp_unit_head 32 header_zero (section_of (v5_unit x02) 24)
      (section_of [x00] 1) 0 COMPILE in
  6 <= 32 /\ 0 <= 0 < 2 ^ 64 /\ fst checked = Normal 24 /\
  sect_off (snd checked) = 0 /\
  24 = sect_off (snd checked) + first_die_cu_offset (snd checked).
Proof.
  intros checked.
  assert (Hbits : 6 <= 32) by discriminate.
  assert (Hptr : 0 <= 0 < 2 ^ 64) by (split; [discriminate | reflexivity]).
  assert (Hok : fst checked = Normal 24) by (vm_compute; reflexivity).
  split; [exact Hbits|]. split; [exact Hptr|]. split; [exact Hok|].
  destruct (checked_first_die_offset 32 header_zero (section_of (v5_unit x02) 24)
              (section_of [x00] 1) 0 COMPILE Hbits Hptr 24 Hok)
    as (Hso & _ & Hsum).
  split; assumption.
Defined.

Lemma empty_abbrev_section_witness :
  get_size (section_of [] 0) <= 0 /\
  forall q,
    fst (read_and_check_comp_unit_head 32 header_zero
           (section_of v4_compile_unit 24) (section_of [] 0) 0 COMPILE)
    <> Normal q.
Proof.
  assert (Hsize : get_size (section_of [] 0) <= 0) by discriminate.
  split; [exact Hsize|].
  destruct (empty_abbrev_section_rejects_every_unit 32 header_zero
              (section_of v4_compile_unit 24) (section_of [] 0) 0 COMPILE Hsize)
    as [Hnever _].
  exact Hnever.
Defined.
